(** * Type-consistency validation and the validation registry of Langium

    A shallow embedding of
    - [packages/langium/src/grammar/type-system/type-validator.ts]
      (the checker comparing inferred and declared types), and
    - the validation registry ([ValidationRegistry]: [register],
      [wrapValidationException], [doRegister], [getChecks]).

    Functions that report through a callback ([accept], [errorToRuleNodes],
    [errorToAssignment]) are embedded in writer style: they return the list of
    the calls made to the acceptor, in order. *)

From Stdlib Require Import String Ascii List Bool Lia.
From stdpp Require Import base option list strings gmap.

Set Default Proof Using "Type".
Set Warnings "-register-all,-clear-no-such-hyp".
Local Open Scope string_scope.
Local Open Scope list_scope.

(** ** JavaScript containers *)

(** A JavaScript [Map] with string keys: iteration follows the order in which
    the keys were first inserted; [set] on an existing key replaces the value
    and keeps the position. *)
Module JsMap.

Fixpoint set {V : Type} (k : string) (v : V) (m : list (string * V)) : list (string * V) :=
  match m with
  | [] => [(k, v)]
  | (k', v') :: m' =>
      if String.eqb k' k then (k', v) :: m' else (k', v') :: set k v m'
  end.

Fixpoint get {V : Type} (k : string) (m : list (string * V)) : option V :=
  match m with
  | [] => None
  | (k', v') :: m' => if String.eqb k' k then Some v' else get k m'
  end.

Definition entries {V : Type} (m : list (string * V)) : list (string * V) := m.

Definition has {V : Type} (k : string) (m : list (string * V)) : bool :=
  match get k m with
  | Some _ => true
  | None => false
  end.

(** An entry with its value replaced by an image of it. *)
Definition onValues {V W : Type} (f : V -> W) (entry : string * V) : string * W :=
  (fst entry, f (snd entry)).

(** One step of a loop that sets a key for some of its elements only. *)
Definition setSome {A V : Type} (key : A -> string) (val : A -> option V)
    (acc : list (string * V)) (e : A) : list (string * V) :=
  match val e with
  | Some v => set (key e) v acc
  | None => acc
  end.

End JsMap.

(** Modelled from the spec: [MultiMap] of [utils/collections], a name-keyed
    multimap ("a name may be returned by several parsing rules", "an ordered
    collection of checks", "re-registering simply appends"): [add] appends the
    value to the key's collection, [get] returns the collection of the exact
    key, empty when the key is unknown. *)
Module MultiMap.

Definition add {V : Type} (key : string) (value : V) (m : gmap string (list V)) : gmap string (list V) :=
  match m !! key with
  | Some values => <[key := values ++ [value]]> m
  | None => <[key := [value]]> m
  end.

Definition get {V : Type} (key : string) (m : gmap string (list V)) : list V :=
  default [] (m !! key).

End MultiMap.

(** [Array.prototype.includes] on an array of strings. *)
Definition includes (l : list string) (e : string) : bool :=
  existsb (String.eqb e) l.

(** [s.replace(/;$/, '.')]: a semicolon at the very end of the string becomes a
    period; any other string is unchanged. *)
Fixpoint replaceFinalSemicolon (s : string) : string :=
  match s with
  | EmptyString => EmptyString
  | String c EmptyString =>
      if Ascii.eqb c ";"%char then String "."%char EmptyString else s
  | String c rest => String c (replaceFinalSemicolon rest)
  end.

(** ** The type description model ([types-util]) *)

Record PropertyType := {
  types : list string;
  array : bool;
  reference : bool
}.

Record Property := {
  name : string;
  typeAlternatives : list PropertyType;
  optional : bool
}.

Record UnionType := {
  union_name : string;
  union : list PropertyType
}.

Record InterfaceType := {
  interface_name : string;
  properties : list Property;
  superTypes : list string
}.

(** [type TypeOrInterface = UnionType | InterfaceType]; [isType] and
    [isInterface] probe for the [union] and the [properties] field. *)
Inductive TypeOrInterface :=
| IsUnion (u : UnionType)
| IsInterface (i : InterfaceType).

Definition typeName_of (t : TypeOrInterface) : string :=
  match t with
  | IsUnion u => union_name u
  | IsInterface i => interface_name i
  end.

Definition isType (t : TypeOrInterface) : bool :=
  match t with IsUnion _ => true | IsInterface _ => false end.

Definition isInterface (t : TypeOrInterface) : bool :=
  match t with IsUnion _ => false | IsInterface _ => true end.

Record AstTypes := {
  interfaces : list InterfaceType;
  unions : list UnionType
}.

(** ** The grammar nodes the checker reads ([generated/ast]) *)

(** An assignment [feature=...] or [feature+=...] of a rule body; [anchor]
    stands for the identity (the source position) of the node. *)
Record Assignment := {
  feature : string;
  anchor : nat
}.

(** The body of a rule. *)
Inductive AbstractElement :=
| ElAssignment (a : Assignment)
| ElGroup (elements : list AbstractElement)
| ElOther.

(** The [infers X] annotation of a rule. *)
Record InferredType := {
  inferredType_name : string
}.

Record ParserRule := {
  rule_name : string;
  inferredType : option InferredType;
  alternatives : AbstractElement
}.

(** A declared [type X = ...] node. *)
Record TypeDecl := {
  type_name : string
}.

(** A declared [interface X { ... }] node. *)
Record InterfaceDecl := {
  interfaceDecl_name : string
}.

Record AstResources := {
  parserRules : list ParserRule;
  datatypeRules : list ParserRule;
  interfaceDecls : list InterfaceDecl;
  typeDecls : list TypeDecl
}.

(** ** Diagnostics *)

Inductive Severity := error | warning | info | hint.

(** [DiagnosticInfo<N>]: only [node] and [property] are used here. *)
Record DiagnosticInfo (N : Type) := {
  node : N;
  property : option string
}.
Arguments node {N} _.
Arguments property {N} _.

(** One call [accept(severity, message, info)]. *)
Record Diagnostic (N : Type) := {
  severity : Severity;
  message : string;
  diagnosticInfo : DiagnosticInfo N
}.
Arguments severity {N} _.
Arguments message {N} _.
Arguments diagnosticInfo {N} _.

(** The nodes a diagnostic of the type checker can be anchored to. *)
Inductive GrammarNode :=
| NodeRule (r : ParserRule)
| NodeInferredType (t : InferredType)
| NodeType (t : TypeDecl)
| NodeInterface (i : InterfaceDecl)
| NodeAssignment (a : Assignment).

Definition accept {N : Type} (sev : Severity) (msg : string) (i : DiagnosticInfo N) : Diagnostic N :=
  {| severity := sev; message := msg; diagnosticInfo := i |}.

(** ** type-validator.ts *)

Record InferredInfo := {
  inferred : TypeOrInterface;
  nodes : list ParserRule
}.

Inductive DeclNode :=
| DeclType (t : TypeDecl)
| DeclInterface (i : InterfaceDecl).

Definition declNode (d : DeclNode) : GrammarNode :=
  match d with
  | DeclType t => NodeType t
  | DeclInterface i => NodeInterface i
  end.

Record DeclaredInfo := {
  declared : TypeOrInterface;
  decl : DeclNode
}.

(** [InferredInfo | DeclaredInfo | InferredInfo & DeclaredInfo] *)
Inductive TypeInfo :=
| OnlyInferred (i : InferredInfo)
| OnlyDeclared (d : DeclaredInfo)
| InferredAndDeclared (i : InferredInfo) (d : DeclaredInfo).

Definition isInferredAndDeclared (t : TypeInfo) : bool :=
  match t with InferredAndDeclared _ _ => true | _ => false end.

Record ErrorInfo := {
  errorMessage : string;
  typeString : string
}.

(** [node?.inferredType ? node.inferredType : node] *)
Definition ruleAnchor (r : ParserRule) : GrammarNode :=
  match inferredType r with
  | Some t => NodeInferredType t
  | None => NodeRule r
  end.

Definition arrRefError (found expected : PropertyType) : string :=
  if array found && negb (array expected) && reference found && negb (reference expected)
  then "can't be an array and a reference"
  else if negb (array found) && array expected && negb (reference found) && reference expected
  then "has to be an array and a reference"
  else if array found && negb (array expected) then "can't be an array"
  else if negb (array found) && array expected then "has to be an array"
  else if reference found && negb (reference expected) then "can't be a reference"
  else if negb (reference found) && reference expected then "has to be a reference"
  else "".

Definition applyErrorToRuleNodes (nodes : list ParserRule) (typeName : string)
  : string -> list (Diagnostic GrammarNode) :=
  fun errorMessage =>
    map (fun node =>
           accept error
             (errorMessage +:+ " in a rule that returns type '" +:+ typeName +:+ "'.")
             {| node := ruleAnchor node; property := Some "name" |})
        nodes.

Definition checkSuperTypesConsistency (inferred declared : list string)
    (errorToRuleNodes : string -> list (Diagnostic GrammarNode))
  : list (Diagnostic GrammarNode) :=
  let specificError (superType : string) (isExtra : bool) :=
    "A super type '" +:+ superType +:+ "' is " +:+ (if isExtra then "not " else "") +:+ "expected" in
  flat_map (fun extraSuperType => errorToRuleNodes (specificError extraSuperType true))
           (List.filter (fun e => negb (includes declared e)) inferred)
  ++
  flat_map (fun lackSuperType => errorToRuleNodes (specificError lackSuperType false))
           (List.filter (fun e => negb (includes inferred e)) declared).

Definition mergeTypesAndInterfaces (astTypes : AstTypes) : list TypeOrInterface :=
  map IsInterface (interfaces astTypes) ++ map IsUnion (unions astTypes).

Section TypeValidator.

(** Collaborators whose code lies outside the checker: [getRuleType]
    ([grammar-util]), [extractAssignments] ([utils/ast-util]),
    [distictAndSorted] and [propertyTypeArrayToString] ([types-util]), and the
    three collectors of [collectValidationResources]. *)
Variable getRuleType : ParserRule -> string.
Variable extractAssignments : AbstractElement -> list Assignment.
Variable distictAndSorted : list string -> list string.
Variable propertyTypeArrayToString : list PropertyType -> string.
Variable Grammar : Type.
Variable collectAllAstResources : list Grammar -> AstResources.
Variable collectInferredTypes : list ParserRule -> list ParserRule -> AstTypes.
Variable collectDeclaredTypes : list InterfaceDecl -> list TypeDecl -> AstTypes -> AstTypes.

Definition applyErrorToAssignment (nodes : list ParserRule)
  : string -> string -> list (Diagnostic GrammarNode) :=
  let assignmentNodes := flat_map (fun node => extractAssignments (alternatives node)) nodes in
  fun propertyName errorMessage =>
    match List.find (fun assignment => String.eqb (feature assignment) propertyName) assignmentNodes with
    | Some node =>
        [accept error errorMessage {| node := NodeAssignment node; property := Some "feature" |}]
    | None => []
    end.

(** [distictAndSorted(e.types).join(' | ')] *)
Definition typeKey (e : PropertyType) : string :=
  String.concat " | " (distictAndSorted (types e)).

Definition stringToPropertyTypeList (propertyTypeList : list PropertyType)
  : list (string * PropertyType) :=
  fold_left (fun acc e => JsMap.set (typeKey e) e acc) propertyTypeList [].

Definition checkAlternativesConsistencyHelper (found expected : list PropertyType)
  : list ErrorInfo :=
  let stringToFound := stringToPropertyTypeList found in
  let stringToExpected := stringToPropertyTypeList expected in
  flat_map
    (fun entry : string * PropertyType =>
       let (typeString, foundPropertyType) := entry in
       match JsMap.get typeString stringToExpected with
       | None => [{| typeString := typeString; errorMessage := "is not expected" |}]
       | Some expectedPropertyType =>
           if negb (Bool.eqb (array expectedPropertyType) (array foundPropertyType))
              || negb (Bool.eqb (reference expectedPropertyType) (reference foundPropertyType))
           then [{| typeString := typeString;
                    errorMessage := arrRefError foundPropertyType expectedPropertyType |}]
           else []
       end)
    (JsMap.entries stringToFound).

Definition checkAlternativesConsistency (inferred declared : list PropertyType)
    (errorToRuleNodes : string -> list (Diagnostic GrammarNode))
  : list (Diagnostic GrammarNode) :=
  let errorsInfo := checkAlternativesConsistencyHelper inferred declared in
  flat_map
    (fun errorInfo =>
       errorToRuleNodes ("A type '" +:+ typeString errorInfo +:+ "' " +:+ errorMessage errorInfo))
    errorsInfo.

Definition baseError (propertyName foundType expectedType : string) : string :=
  "The assigned type '" +:+ foundType +:+ "' is not compatible with the declared property '"
  +:+ propertyName +:+ "' of type '" +:+ expectedType +:+ "'.".

(** [alternatives.length === 1 && alternatives[0].array] *)
Definition singleArrayAlternative (alternatives : list PropertyType) : bool :=
  match alternatives with
  | [alternative] => array alternative
  | _ => false
  end.

Definition checkOptional (found expected : Property) : bool :=
  negb (singleArrayAlternative (typeAlternatives found)
        || singleArrayAlternative (typeAlternatives expected)).

(** The message built from the sub-mismatches of one property
    (the inner [for] loop and the final [replace]). *)
Definition resultError (foundProperty : Property) (foundStringType expectedStringType : string)
    (typeAlternativesErrors : list ErrorInfo) : string :=
  replaceFinalSemicolon
    (fold_left
       (fun resultError errorInfo =>
          resultError +:+ " '" +:+ typeString errorInfo +:+ "' " +:+ errorMessage errorInfo +:+ ";")
       typeAlternativesErrors
       (baseError (name foundProperty) foundStringType expectedStringType)).

(** First statement of the body of the first loop, for a matched property:
    the comparison of the type alternatives. *)
Definition checkPropertyTypeAlternatives (foundProperty expectedProperty : Property)
    (errorToAssignment : string -> string -> list (Diagnostic GrammarNode))
  : list (Diagnostic GrammarNode) :=
  let foundStringType := propertyTypeArrayToString (typeAlternatives foundProperty) in
  let expectedStringType := propertyTypeArrayToString (typeAlternatives expectedProperty) in
  if negb (String.eqb foundStringType expectedStringType) then
    let typeAlternativesErrors :=
      checkAlternativesConsistencyHelper
        (typeAlternatives foundProperty) (typeAlternatives expectedProperty) in
    if Nat.ltb 0 (List.length typeAlternativesErrors) then
      errorToAssignment (name foundProperty)
        (resultError foundProperty foundStringType expectedStringType typeAlternativesErrors)
    else []
  else [].

(** Second statement of the body of the first loop, for a matched property:
    the optionality check. *)
Definition checkPropertyOptional (foundProperty expectedProperty : Property)
    (errorToAssignment : string -> string -> list (Diagnostic GrammarNode))
  : list (Diagnostic GrammarNode) :=
  if checkOptional foundProperty expectedProperty
     && negb (optional expectedProperty) && optional foundProperty
  then errorToAssignment (name foundProperty)
         ("A property '" +:+ name foundProperty +:+ "' can't be optional.")
  else [].

(** Body of the first loop of [checkPropertiesConsistency]. *)
Definition checkFoundProperty (declared : list Property)
    (errorToAssignment : string -> string -> list (Diagnostic GrammarNode))
    (foundProperty : Property) : list (Diagnostic GrammarNode) :=
  match List.find (fun e => String.eqb (name foundProperty) (name e)) declared with
  | Some expectedProperty =>
      checkPropertyTypeAlternatives foundProperty expectedProperty errorToAssignment
      ++ checkPropertyOptional foundProperty expectedProperty errorToAssignment
  | None =>
      errorToAssignment (name foundProperty)
        ("A property '" +:+ name foundProperty +:+ "' is not expected.")
  end.

(** Body of the second loop of [checkPropertiesConsistency]. *)
Definition checkLackingProperty (inferred : list Property)
    (errorToRuleNodes : string -> list (Diagnostic GrammarNode))
    (foundProperty : Property) : list (Diagnostic GrammarNode) :=
  match List.find (fun e => String.eqb (name foundProperty) (name e)) inferred with
  | Some _ => []
  | None => errorToRuleNodes ("A property '" +:+ name foundProperty +:+ "' is expected")
  end.

Definition checkPropertiesConsistency (inferred declared : list Property)
    (errorToRuleNodes : string -> list (Diagnostic GrammarNode))
    (errorToAssignment : string -> string -> list (Diagnostic GrammarNode))
  : list (Diagnostic GrammarNode) :=
  flat_map (checkFoundProperty declared errorToAssignment) inferred
  ++ flat_map (checkLackingProperty inferred errorToRuleNodes) declared.

Definition getTypeNameToRules (astResources : AstResources) : gmap string (list ParserRule) :=
  fold_left (fun acc rule => MultiMap.add (getRuleType rule) rule acc)
            (parserRules astResources ++ datatypeRules astResources)
            ∅.

(** [stream(types).find(...) ?? stream(interfaces).find(...)] *)
Definition findDeclNode (astResources : AstResources) (typeName : string) : option DeclNode :=
  match List.find (fun e => String.eqb (type_name e) typeName) (typeDecls astResources) with
  | Some t => Some (DeclType t)
  | None =>
      match List.find (fun e => String.eqb (interfaceDecl_name e) typeName)
                      (interfaceDecls astResources) with
      | Some i => Some (DeclInterface i)
      | None => None
      end
  end.

Definition collectValidationResources (grammar : Grammar) : list (string * TypeInfo) :=
  let astResources := collectAllAstResources [grammar] in
  let inferred := collectInferredTypes (parserRules astResources) (datatypeRules astResources) in
  let declared :=
    collectDeclaredTypes (interfaceDecls astResources) (typeDecls astResources) inferred in
  let typeNameToRules := getTypeNameToRules astResources in
  let inferredInfo :=
    fold_left
      (fun acc type =>
         JsMap.set (typeName_of type)
           {| inferred := type; nodes := MultiMap.get (typeName_of type) typeNameToRules |} acc)
      (mergeTypesAndInterfaces inferred) [] in
  let allTypesInfo :=
    fold_left
      (fun acc type =>
         match findDeclNode astResources (typeName_of type) with
         | Some node =>
             let inferred := JsMap.get (typeName_of type) inferredInfo in
             JsMap.set (typeName_of type)
               match inferred with
               | Some inferred => InferredAndDeclared inferred {| declared := type; decl := node |}
               | None => OnlyDeclared {| declared := type; decl := node |}
               end acc
         | None => acc
         end)
      (mergeTypesAndInterfaces declared) [] in
  allTypesInfo.

(** Body of the loop of [validateTypesConsistency] for one entry of the map;
    an entry that is not [isInferredAndDeclared] is skipped. *)
Definition validateTypeInfo (typeName : string) (typeInfo : TypeInfo)
  : list (Diagnostic GrammarNode) :=
  match typeInfo with
  | InferredAndDeclared i d =>
      let errorToRuleNodes := applyErrorToRuleNodes (nodes i) typeName in
      let errorToAssignment := applyErrorToAssignment (nodes i) in
      match inferred i, declared d with
      | IsUnion iu, IsUnion du =>
          checkAlternativesConsistency (union iu) (union du) errorToRuleNodes
      | IsInterface ii, IsInterface di =>
          checkPropertiesConsistency (properties ii) (properties di)
            errorToRuleNodes errorToAssignment
          ++ checkSuperTypesConsistency (superTypes ii) (superTypes di) errorToRuleNodes
      | _, _ =>
          let specificError :=
            "Inferred and declared versions of type " +:+ typeName
            +:+ " have to be types or interfaces both." in
          map (fun node =>
                 accept error specificError
                   {| node := ruleAnchor node; property := Some "name" |})
              (nodes i)
          ++ [accept error specificError {| node := declNode (decl d); property := Some "name" |}]
      end
  | _ => []
  end.

(** The pass over an already collected map. *)
Definition validateResources (validationResources : list (string * TypeInfo))
  : list (Diagnostic GrammarNode) :=
  flat_map (fun entry : string * TypeInfo => validateTypeInfo (fst entry) (snd entry))
           (JsMap.entries validationResources).

Definition validateTypesConsistency (grammar : Grammar) : list (Diagnostic GrammarNode) :=
  validateResources (collectValidationResources grammar).

End TypeValidator.

(** [InterfaceInfo]: [node] is the declaration of the interface or the rules
    that produce it. *)
Inductive InterfaceNode :=
| DeclaredBy (declaration : InterfaceDecl)
| ProducedBy (rules : list ParserRule).

Record InterfaceInfo := {
  interfaceInfo_type : InterfaceType;
  interfaceInfo_node : InterfaceNode
}.

Section AllInterfaces.

Variable getRuleType : ParserRule -> string.
Variable Grammar : Type.
Variable collectAllAstResources : list Grammar -> AstResources.
Variable collectInferredTypes : list ParserRule -> list ParserRule -> AstTypes.
Variable collectDeclaredTypes : list InterfaceDecl -> list TypeDecl -> AstTypes -> AstTypes.

(** One step of the second [reduce] of [collectAllInterfaces]. *)
Definition addDeclaredInterface (astResources : AstResources)
    (acc : list (string * InterfaceInfo)) (type : InterfaceType) : list (string * InterfaceInfo) :=
  if negb (JsMap.has (interface_name type) acc) then
    match List.find (fun e => String.eqb (interfaceDecl_name e) (interface_name type))
                    (interfaceDecls astResources) with
    | Some node =>
        JsMap.set (interface_name type)
          {| interfaceInfo_type := type; interfaceInfo_node := DeclaredBy node |} acc
    | None => acc
    end
  else acc.

Definition collectAllInterfaces (grammar : Grammar) : list (string * InterfaceInfo) :=
  let astResources := collectAllAstResources [grammar] in
  let inferred := collectInferredTypes (parserRules astResources) (datatypeRules astResources) in
  let declared :=
    collectDeclaredTypes (interfaceDecls astResources) (typeDecls astResources) inferred in
  let typeNameToRules := getTypeNameToRules getRuleType astResources in
  let inferredInterfaces :=
    fold_left
      (fun acc type =>
         JsMap.set (interface_name type)
           {| interfaceInfo_type := type;
              interfaceInfo_node :=
                ProducedBy (MultiMap.get (interface_name type) typeNameToRules) |} acc)
      (interfaces inferred) [] in
  fold_left (addDeclaredInterface astResources) (interfaces declared) inferredInterfaces.

End AllInterfaces.

(** ** The validation registry *)

(** An [Error] object: [err.message] and [err.stack]. *)
Record JsError := {
  error_message : string;
  stack : option string
}.

(** What a check can raise (or reject with): an [Error]; any other value that
    [String(err)] converts to a string; or a value whose conversion raises in
    its turn, as [String(Object.create(null))] raises a [TypeError]. *)
Inductive Thrown :=
| ErrorObject (e : JsError)
| OtherValue (asString : string)
| Unprintable (raised : Thrown).

(** The two calls of [console.error] in the wrapper. *)
Inductive LogEntry :=
| LogFailure (err : Thrown)
| LogStack (trace : string).

Inductive Outcome :=
| Returned
| Threw (err : Thrown).

Section Registry.

Variable Node : Type.
Variable This : Type.
Variable CancellationToken : Type.

(** [AstReflection]: the subtype oracle. *)
Variable getAllTypes : list string.
Variable isSubtype : string -> string -> bool.

(** [isOperationCancelled] of [utils/promise-util]: the test for the
    cooperative-cancellation signal. *)
Variable isOperationCancelled : Thrown -> bool.

(** What one (awaited) invocation of a check did: the calls to [accept], the
    lines written to the console, and whether it completed or raised. *)
Record CheckRun := {
  accepted : list (Diagnostic Node);
  logged : list LogEntry;
  outcome : Outcome
}.

(** [ValidationCheck], with the receiver ([this]) as first argument. *)
Definition ValidationCheck : Type := This -> Node -> CancellationToken -> CheckRun.

(** [err instanceof Error ? err.message : String(err)]: the message, or
    what the conversion raises. *)
Definition thrownMessage (err : Thrown) : string + Thrown :=
  match err with
  | ErrorObject e => inl (error_message e)
  | OtherValue s => inl s
  | Unprintable raised => inr raised
  end.

(** [if (err instanceof Error && err.stack) console.error(err.stack)] *)
Definition stackLog (err : Thrown) : list LogEntry :=
  match err with
  | ErrorObject e =>
      match stack e with
      | Some trace => if String.eqb trace "" then [] else [LogStack trace]
      | None => []
      end
  | _ => []
  end.

Definition wrapValidationException (check : ValidationCheck) (thisObj : This) : ValidationCheck :=
  fun _ node cancelToken =>
    let run := check thisObj node cancelToken in
    match outcome run with
    | Returned => run
    | Threw err =>
        if isOperationCancelled err then run
        else
          match thrownMessage err with
          | inl message =>
              {| accepted :=
                   accepted run
                   ++ [accept error ("An error occurred during validation: " +:+ message)
                         {| node := node; property := None |}];
                 logged := logged run ++ LogFailure err :: stackLog err;
                 outcome := Returned |}
          | inr raised =>
              {| accepted := accepted run;
                 logged := logged run ++ [LogFailure err];
                 outcome := Threw raised |}
          end
    end.

Definition doRegister (type : string) (check : ValidationCheck)
    (validationChecks : gmap string (list ValidationCheck)) : gmap string (list ValidationCheck) :=
  fold_left
    (fun acc subtype =>
       if isSubtype subtype type then MultiMap.add subtype check acc else acc)
    getAllTypes validationChecks.

(** A value of the record given to [register]. *)
Inductive ChecksValue :=
| OneCheck (check : ValidationCheck)
| ManyChecks (checks : list ValidationCheck)
| NoCheck.

Definition register (checksRecord : list (string * ChecksValue)) (thisObj : This)
    (validationChecks : gmap string (list ValidationCheck)) : gmap string (list ValidationCheck) :=
  fold_left
    (fun acc entry =>
       match snd entry with
       | ManyChecks ch =>
           fold_left
             (fun acc check => doRegister (fst entry) (wrapValidationException check thisObj) acc)
             ch acc
       | OneCheck ch => doRegister (fst entry) (wrapValidationException ch thisObj) acc
       | NoCheck => acc
       end)
    checksRecord validationChecks.

Definition getChecks (type : string) (validationChecks : gmap string (list ValidationCheck))
  : list ValidationCheck :=
  MultiMap.get type validationChecks.

(** The checks a record hands to [register] for a type name. *)
Definition checksOf (value : ChecksValue) : list ValidationCheck :=
  match value with
  | OneCheck check => [check]
  | ManyChecks checks => checks
  | NoCheck => []
  end.

End Registry.

Arguments accepted {Node} _.
Arguments logged {Node} _.
Arguments outcome {Node} _.
Arguments OneCheck {Node This CancellationToken} _.
Arguments ManyChecks {Node This CancellationToken} _.
Arguments NoCheck {Node This CancellationToken}.
Arguments checksOf {Node This CancellationToken} _.
Arguments wrapValidationException {Node This CancellationToken} _ _ _.
Arguments doRegister {Node This CancellationToken} _ _ _ _ _.
Arguments register {Node This CancellationToken} _ _ _ _ _ _.
Arguments getChecks {Node This CancellationToken} _ _.

(** ** Instances of the collaborators

    Concrete functions for the parameters above, used to evaluate the checker
    and the registry on concrete grammars. *)
Module Sample.

(** The type a rule returns: the inferred-type annotation, else the rule name. *)
Definition getRuleType (rule : ParserRule) : string :=
  match inferredType rule with
  | Some t => inferredType_name t
  | None => rule_name rule
  end.

(** Every assignment occurring in a rule body, in order. *)
Fixpoint extractAssignments (element : AbstractElement) : list Assignment :=
  match element with
  | ElAssignment a => [a]
  | ElGroup elements => flat_map extractAssignments elements
  | ElOther => []
  end.

Fixpoint insertSorted (s : string) (l : list string) : list string :=
  match l with
  | [] => [s]
  | x :: rest => if String.leb s x then s :: l else x :: insertSorted s rest
  end.

(** Deduplicated, then sorted. *)
Definition distictAndSorted (l : list string) : list string :=
  fold_right insertSorted [] (nodup string_dec l).

Definition typePropertyToString (propertyType : PropertyType) : string :=
  let res := String.concat " | " (distictAndSorted (types propertyType)) in
  let res := if reference propertyType then "Reference<" +:+ res +:+ ">" else res in
  if array propertyType then "Array<" +:+ res +:+ ">" else res.

Definition propertyTypeArrayToString (alternatives : list PropertyType) : string :=
  String.concat " | " (distictAndSorted (map typePropertyToString alternatives)).

(** A grammar is given by its resources. *)
Definition collectAllAstResources (grammars : list AstResources) : AstResources :=
  {| parserRules := flat_map parserRules grammars;
     datatypeRules := flat_map datatypeRules grammars;
     interfaceDecls := flat_map interfaceDecls grammars;
     typeDecls := flat_map typeDecls grammars |}.

(** A property-less interface per parser rule, a union per datatype rule. *)
Definition collectInferredTypes (parserRules datatypeRules : list ParserRule) : AstTypes :=
  {| interfaces :=
       map (fun r => {| interface_name := getRuleType r; properties := []; superTypes := [] |})
           parserRules;
     unions :=
       map (fun r => {| union_name := getRuleType r; union := [] |}) datatypeRules |}.

(** A property-less interface per interface declaration, a union per type
    declaration. *)
Definition collectDeclaredTypes (interfaceDecls : list InterfaceDecl) (typeDecls : list TypeDecl)
    (inferred : AstTypes) : AstTypes :=
  {| interfaces :=
       map (fun d => {| interface_name := interfaceDecl_name d; properties := [];
                        superTypes := [] |})
           interfaceDecls;
     unions := map (fun d => {| union_name := type_name d; union := [] |}) typeDecls |}.

(** The cancellation signal, recognised by its printed form. *)
Definition isOperationCancelled (err : Thrown) : bool :=
  match err with
  | OtherValue s => String.eqb s "Symbol(OperationCancelled)"
  | ErrorObject _ => false
  | Unprintable _ => false
  end.

Definition plainType (typeName : string) : PropertyType :=
  {| types := [typeName]; array := false; reference := false |}.

Definition arrayType (typeName : string) : PropertyType :=
  {| types := [typeName]; array := true; reference := false |}.

Definition rule (ruleName : string) (body : list Assignment) : ParserRule :=
  {| rule_name := ruleName; inferredType := None;
     alternatives := ElGroup (map ElAssignment body) |}.

(** A rule annotated with an inferred type. *)
Definition ruleInferring (ruleName typeName : string) (body : list Assignment) : ParserRule :=
  {| rule_name := ruleName; inferredType := Some {| inferredType_name := typeName |};
     alternatives := ElGroup (map ElAssignment body) |}.

(** An interface [T] inferred from one rule with the assignments [name] and
    [items], and two declarations of it: one that agrees with it up to the
    order of its parts, one that differs in the type and in the optionality of
    [items]. *)
Definition inferredT (body : list Assignment) : InferredInfo :=
  {| inferred :=
       IsInterface
         {| interface_name := "T";
            properties :=
              [ {| name := "name"; typeAlternatives := [plainType "string"]; optional := false |};
                {| name := "items";
                   typeAlternatives := [{| types := ["B"; "A"]; array := false; reference := false |}];
                   optional := true |} ];
            superTypes := ["X"; "Y"] |};
     nodes := [rule "T" body] |}.

Definition agreeingT : DeclaredInfo :=
  {| declared :=
       IsInterface
         {| interface_name := "T";
            properties :=
              [ {| name := "items";
                   typeAlternatives := [{| types := ["A"; "B"]; array := false; reference := false |}];
                   optional := true |};
                {| name := "name"; typeAlternatives := [plainType "string"]; optional := false |} ];
            superTypes := ["Y"; "X"] |};
     decl := DeclInterface {| interfaceDecl_name := "T" |} |}.

Definition itemsArrayRequired : Property :=
  {| name := "items";
     typeAlternatives := [{| types := ["A"; "B"]; array := true; reference := false |}];
     optional := false |}.

Definition itemsPlainRequired : Property :=
  {| name := "items";
     typeAlternatives := [{| types := ["A"; "B"]; array := false; reference := false |}];
     optional := false |}.

Definition itemsPlainOptional : Property :=
  {| name := "items";
     typeAlternatives := [{| types := ["B"; "A"]; array := false; reference := false |}];
     optional := true |}.

(** A registry over numbered nodes: the type [Entity] is a subtype of
    [Element], and [Other] is unrelated. *)
Definition getAllTypes : list string := ["Element"; "Entity"; "Other"].

Definition isSubtype (subtype supertype : string) : bool :=
  String.eqb subtype supertype
  || (String.eqb subtype "Entity" && String.eqb supertype "Element").

(** A check that fails with an [Error] after accepting nothing. *)
Definition failingCheck : ValidationCheck nat unit unit :=
  fun _ _ _ =>
    {| accepted := [];
       logged := [];
       outcome := Threw (ErrorObject {| error_message := "boom"; stack := Some "at check" |}) |}.

(** The [TypeError] that [String] raises for an object without prototype. *)
Definition conversionError : Thrown :=
  ErrorObject {| error_message := "Cannot convert object to primitive value";
                 stack := Some "TypeError: Cannot convert object to primitive value" |}.

(** A check that throws an object without prototype, [throw Object.create(null)],
    after accepting nothing. *)
Definition unprintableCheck : ValidationCheck nat unit unit :=
  fun _ _ _ =>
    {| accepted := []; logged := []; outcome := Threw (Unprintable conversionError) |}.

(** The checker, with the collaborators above. *)
Definition validateTypeInfo : string -> TypeInfo -> list (Diagnostic GrammarNode) :=
  validateTypeInfo extractAssignments distictAndSorted propertyTypeArrayToString.

End Sample.

(** ** Notions used in the statements *)

(** The six conditions of [arrRefError], in the order of the ternary chain. *)
Inductive ArrRefCase :=
| CantBeArrayAndReference
| HasToBeArrayAndReference
| CantBeArray
| HasToBeArray
| CantBeReference
| HasToBeReference.

Definition arrRefCases : list ArrRefCase :=
  [CantBeArrayAndReference; HasToBeArrayAndReference; CantBeArray; HasToBeArray;
   CantBeReference; HasToBeReference].

Definition arrRefCondition (c : ArrRefCase) (found expected : PropertyType) : bool :=
  match c with
  | CantBeArrayAndReference =>
      array found && negb (array expected) && reference found && negb (reference expected)
  | HasToBeArrayAndReference =>
      negb (array found) && array expected && negb (reference found) && reference expected
  | CantBeArray => array found && negb (array expected)
  | HasToBeArray => negb (array found) && array expected
  | CantBeReference => reference found && negb (reference expected)
  | HasToBeReference => negb (reference found) && reference expected
  end.

Definition arrRefMessage (c : ArrRefCase) : string :=
  match c with
  | CantBeArrayAndReference => "can't be an array and a reference"
  | HasToBeArrayAndReference => "has to be an array and a reference"
  | CantBeArray => "can't be an array"
  | HasToBeArray => "has to be an array"
  | CantBeReference => "can't be a reference"
  | HasToBeReference => "has to be a reference"
  end.

(** The first case, in precedence order, whose condition holds. *)
Definition firstArrRefCase (found expected : PropertyType) : option ArrRefCase :=
  List.find (fun c => arrRefCondition c found expected) arrRefCases.

(** The two property types differ in the array flag or in the reference flag. *)
Definition flagsDiffer (found expected : PropertyType) : Prop :=
  array found <> array expected \/ reference found <> reference expected.

(** The diagnostic a rule receives for a message reported through
    [applyErrorToRuleNodes]. *)
Definition ruleDiagnostic (typeName errorMessage : string) (rule : ParserRule)
  : Diagnostic GrammarNode :=
  {| severity := error;
     message := errorMessage +:+ " in a rule that returns type '" +:+ typeName +:+ "'.";
     diagnosticInfo :=
       {| node := match inferredType rule with
                  | Some annotation => NodeInferredType annotation
                  | None => NodeRule rule
                  end;
          property := Some "name" |} |}.

(** The diagnostic an assignment receives. *)
Definition assignmentDiagnostic (errorMessage : string) (assignment : Assignment)
  : Diagnostic GrammarNode :=
  {| severity := error;
     message := errorMessage;
     diagnosticInfo := {| node := NodeAssignment assignment; property := Some "feature" |} |}.

(** The shape-mismatch message. *)
Definition shapeMismatchMessage (typeName : string) : string :=
  "Inferred and declared versions of type " +:+ typeName
  +:+ " have to be types or interfaces both.".

(** One sub-mismatch clause of the combined message of a property. *)
Definition mismatchClause (errorInfo : ErrorInfo) : string :=
  "'" +:+ typeString errorInfo +:+ "' " +:+ errorMessage errorInfo.

(** The combined message as the specification words it: the base sentence,
    then the clauses joined by semicolons and closed by a period. *)
Definition combinedMessage (propertyName foundType expectedType : string)
    (errors : list ErrorInfo) : string :=
  "The assigned type '" +:+ foundType +:+ "' is not compatible with the declared property '"
  +:+ propertyName +:+ "' of type '" +:+ expectedType +:+ "'."
  +:+ " " +:+ String.concat "; " (map mismatchClause errors) +:+ ".".

(** The assignment node of a property name: the first assignment to that
    feature among the assignments of the producing rules, if there is one. *)
Definition assignmentNodeFor (extractAssignments : AbstractElement -> list Assignment)
    (nodes : list ParserRule) (propertyName : string) : option Assignment :=
  List.find (fun assignment => String.eqb (feature assignment) propertyName)
            (flat_map (fun rule => extractAssignments (alternatives rule)) nodes).

(** The single-array-alternative case: exactly one type alternative, and its
    array flag is set. *)
Definition singleArrayAlternativeCase (p : Property) : Prop :=
  exists alternative, typeAlternatives p = [alternative] /\ array alternative = true.

(** Successive calls of [register], each with its record and its receiver. *)
Definition registerAll {Node This CancellationToken : Type}
    (getAllTypes : list string) (isSubtype : string -> string -> bool)
    (isOperationCancelled : Thrown -> bool)
    (calls : list (list (string * ChecksValue Node This CancellationToken) * This))
    (validationChecks : gmap string (list (ValidationCheck Node This CancellationToken)))
  : gmap string (list (ValidationCheck Node This CancellationToken)) :=
  fold_left
    (fun acc call =>
       register getAllTypes isSubtype isOperationCancelled (fst call) (snd call) acc)
    calls validationChecks.

(** The names of the inferred and of the declared types of a grammar, as the
    collaborators of [collectValidationResources] give them. *)
Section TypeNames.

Variable Grammar : Type.
Variable collectAllAstResources : list Grammar -> AstResources.
Variable collectInferredTypes : list ParserRule -> list ParserRule -> AstTypes.
Variable collectDeclaredTypes : list InterfaceDecl -> list TypeDecl -> AstTypes -> AstTypes.

Definition inferredNames (grammar : Grammar) : list string :=
  let astResources := collectAllAstResources [grammar] in
  map typeName_of
    (mergeTypesAndInterfaces
       (collectInferredTypes (parserRules astResources) (datatypeRules astResources))).

Definition declaredNames (grammar : Grammar) : list string :=
  let astResources := collectAllAstResources [grammar] in
  map typeName_of
    (mergeTypesAndInterfaces
       (collectDeclaredTypes (interfaceDecls astResources) (typeDecls astResources)
          (collectInferredTypes (parserRules astResources) (datatypeRules astResources)))).

End TypeNames.

(** The agreement of an inferred and a declared description.  An alternative
    is identified by its canonical type string, a property by its name. *)
Section Agreement.

Variable distictAndSorted : list string -> list string.
Variable propertyTypeArrayToString : list PropertyType -> string.

(** Same alternatives: the same canonical strings on both sides, and the same
    array and reference flags under each string. *)
Definition sameAlternatives (inferred declared : list PropertyType) : Prop :=
  (forall f, In f inferred ->
     exists e, In e declared /\ typeKey distictAndSorted e = typeKey distictAndSorted f)
  /\ (forall e, In e declared ->
        exists f, In f inferred /\ typeKey distictAndSorted f = typeKey distictAndSorted e)
  /\ (forall f e, In f inferred -> In e declared ->
        typeKey distictAndSorted f = typeKey distictAndSorted e ->
        array f = array e /\ reference f = reference e).

(** What the checker compares of an alternative: its canonical string and
    its two flags. *)
Definition alternativeShape (e : PropertyType) : string * (bool * bool) :=
  (typeKey distictAndSorted e, (array e, reference e)).

(** The same alternatives in the same order. *)
Definition sameAlternativeSequence (inferred declared : list PropertyType) : Prop :=
  map alternativeShape inferred = map alternativeShape declared.

(** Same properties: the same names on both sides, and under each name the
    same canonical type-alternative string and the same optional flag. *)
Definition sameProperties (inferred declared : list Property) : Prop :=
  (forall f, In f inferred -> exists e, In e declared /\ name e = name f)
  /\ (forall e, In e declared -> exists f, In f inferred /\ name f = name e)
  /\ (forall f e, In f inferred -> In e declared -> name f = name e ->
        propertyTypeArrayToString (typeAlternatives f)
        = propertyTypeArrayToString (typeAlternatives e)
        /\ optional f = optional e).

(** Same supertype names. *)
Definition sameSuperTypes (inferred declared : list string) : Prop :=
  forall s, In s inferred <-> In s declared.

(** Same shape kind and same content: two unions with the same alternatives,
    as a set or as a sequence, or two interfaces with the same properties and
    supertypes. *)
Inductive agree : TypeOrInterface -> TypeOrInterface -> Prop :=
| agree_unions (iu du : UnionType) :
    sameAlternatives (union iu) (union du) ->
    agree (IsUnion iu) (IsUnion du)
| agree_unions_in_order (iu du : UnionType) :
    sameAlternativeSequence (union iu) (union du) ->
    agree (IsUnion iu) (IsUnion du)
| agree_interfaces (ii di : InterfaceType) :
    sameProperties (properties ii) (properties di) ->
    sameSuperTypes (superTypes ii) (superTypes di) ->
    agree (IsInterface ii) (IsInterface di).

End Agreement.

(** The rules of a grammar that return a type name. *)
Definition rulesReturning (getRuleType : ParserRule -> string) (astResources : AstResources)
    (typeName : string) : list ParserRule :=
  List.filter (fun rule => String.eqb (getRuleType rule) typeName)
              (parserRules astResources ++ datatypeRules astResources).

(** The map of the inferred types that [collectValidationResources] builds
    first, and the entry it then makes for a declared type: none when the
    declaration node is not found. *)
Definition inferredInfoMap (getRuleType : ParserRule -> string) (astResources : AstResources)
    (inferredTypes : AstTypes) : list (string * InferredInfo) :=
  fold_left
    (fun acc type =>
       JsMap.set (typeName_of type)
         {| inferred := type;
            nodes := MultiMap.get (typeName_of type)
                       (getTypeNameToRules getRuleType astResources) |} acc)
    (mergeTypesAndInterfaces inferredTypes) [].

Definition declaredEntry (getRuleType : ParserRule -> string) (astResources : AstResources)
    (inferredTypes : AstTypes) (type : TypeOrInterface) : option TypeInfo :=
  match findDeclNode astResources (typeName_of type) with
  | Some node =>
      Some match JsMap.get (typeName_of type)
                   (inferredInfoMap getRuleType astResources inferredTypes) with
           | Some i => InferredAndDeclared i {| declared := type; decl := node |}
           | None => OnlyDeclared {| declared := type; decl := node |}
           end
  | None => None
  end.

(** The name of a declaration node. *)
Definition declNode_name (d : DeclNode) : string :=
  match d with
  | DeclType t => type_name t
  | DeclInterface i => interfaceDecl_name i
  end.

(** A diagnostic of the checker sits inside the grammar: it is an error on the
    name of a rule of the grammar (on its annotation when it has one), on the
    name of a declaration of the grammar, or on the feature of an assignment of
    the body of a rule of the grammar. *)
Definition anchoredInGrammar (extractAssignments : AbstractElement -> list Assignment)
    (astResources : AstResources) (d : Diagnostic GrammarNode) : Prop :=
  severity d = error
  /\ ((exists rule,
         In rule (parserRules astResources ++ datatypeRules astResources)
         /\ diagnosticInfo d = {| node := ruleAnchor rule; property := Some "name" |})
      \/ (exists t,
            In t (typeDecls astResources)
            /\ diagnosticInfo d = {| node := NodeType t; property := Some "name" |})
      \/ (exists i,
            In i (interfaceDecls astResources)
            /\ diagnosticInfo d = {| node := NodeInterface i; property := Some "name" |})
      \/ (exists rule assignment,
            In rule (parserRules astResources ++ datatypeRules astResources)
            /\ In assignment (extractAssignments (alternatives rule))
            /\ diagnosticInfo d
               = {| node := NodeAssignment assignment; property := Some "feature" |})).

(** The case that describes the same mismatch seen from the other side. *)
Definition oppositeCase (c : ArrRefCase) : ArrRefCase :=
  match c with
  | CantBeArrayAndReference => HasToBeArrayAndReference
  | HasToBeArrayAndReference => CantBeArrayAndReference
  | CantBeArray => HasToBeArray
  | HasToBeArray => CantBeArray
  | CantBeReference => HasToBeReference
  | HasToBeReference => CantBeReference
  end.

(** * Properties *)

(** ** The insertion-ordered map *)

Section JsMapFacts.

Context {V : Type}.
Implicit Types (m : list (string * V)) (k : string) (v : V).

Lemma JsMap_get_set_eq m k v : JsMap.get k (JsMap.set k v m) = Some v.
Proof.
  induction m as [|[k' v'] m IH]; simpl.
  - by rewrite String.eqb_refl.
  - destruct (String.eqb k' k) eqn:E; simpl; rewrite E; [done | apply IH].
Qed.

Lemma JsMap_get_set_ne m k k' v : k <> k' -> JsMap.get k' (JsMap.set k v m) = JsMap.get k' m.
Proof.
  intros Hne. induction m as [|[k0 v0] m IH]; simpl.
  - destruct (String.eqb k k') eqn:E; [|done].
    apply String.eqb_eq in E. contradiction.
  - destruct (String.eqb k0 k) eqn:E; simpl.
    + apply String.eqb_eq in E. subst k0.
      destruct (String.eqb k k') eqn:E'; [|done].
      apply String.eqb_eq in E'. contradiction.
    + by rewrite IH.
Qed.

Lemma JsMap_in_set m k v k' v' :
  In (k', v') (JsMap.set k v m) -> (k' = k /\ v' = v) \/ In (k', v') m.
Proof.
  induction m as [|[k0 v0] m IH]; simpl.
  - intros [H|[]]. left. by inversion H.
  - destruct (String.eqb k0 k) eqn:E; simpl.
    + apply String.eqb_eq in E. subst k0.
      intros [H|H]; [left; by inversion H | right; by right].
    + intros [H|H]; [right; by left |].
      destruct (IH H) as [?|?]; [by left | right; by right].
Qed.

Lemma JsMap_get_in m k v : JsMap.get k m = Some v -> In (k, v) m.
Proof.
  induction m as [|[k0 v0] m IH]; simpl; [done|].
  destruct (String.eqb k0 k) eqn:E.
  - apply String.eqb_eq in E. intros [= ->]. left. by subst.
  - intros H. right. by apply IH.
Qed.

Lemma JsMap_in_get m k v : In (k, v) m -> exists v', JsMap.get k m = Some v'.
Proof.
  induction m as [|[k0 v0] m IH]; simpl; [done|].
  intros [H|H].
  - inversion H; subst. rewrite String.eqb_refl. by eexists.
  - destruct (String.eqb k0 k); [by eexists | by apply IH].
Qed.

Lemma JsMap_get_set_some m k v k' :
  (exists v', JsMap.get k' m = Some v') -> exists v', JsMap.get k' (JsMap.set k v m) = Some v'.
Proof.
  intros H. destruct (string_dec k k') as [->|Hne].
  - rewrite JsMap_get_set_eq. by eexists.
  - by rewrite JsMap_get_set_ne.
Qed.

Lemma JsMap_set_keys m k v :
  forall k', In k' (map fst (JsMap.set k v m)) <-> k' = k \/ In k' (map fst m).
Proof.
  induction m as [|[k0 v0] m IH]; intros k'; simpl.
  - split; intros [->|[]]; by left.
  - destruct (String.eqb k0 k) eqn:E; simpl.
    + apply String.eqb_eq in E. subst k0. split.
      * intros [->|H]; [by left | right; by right].
      * intros [->|[->|H]]; [by left | by left | by right].
    + rewrite IH. split.
      * intros [->|[->|H]]; [right; by left | by left | right; by right].
      * intros [->|[->|H]]; [right; by left | by left | right; by right].
Qed.

Lemma JsMap_set_NoDup m k v : List.NoDup (map fst m) -> List.NoDup (map fst (JsMap.set k v m)).
Proof.
  induction m as [|[k0 v0] m IH]; simpl; intros Hnd.
  - apply List.NoDup_cons; [intros [] | apply List.NoDup_nil].
  - apply List.NoDup_cons_iff in Hnd as [Hk0 Hnd].
    destruct (String.eqb k0 k) eqn:E; simpl.
    + by apply List.NoDup_cons_iff.
    + apply List.NoDup_cons_iff. split; [|by apply IH].
      rewrite JsMap_set_keys. intros [->|H]; [|done].
      by rewrite String.eqb_refl in E.
Qed.

Lemma JsMap_in_get_NoDup m k v : List.NoDup (map fst m) -> In (k, v) m -> JsMap.get k m = Some v.
Proof.
  induction m as [|[k0 v0] m IH]; simpl; intros Hnd; [done|].
  apply List.NoDup_cons_iff in Hnd as [Hk0 Hnd].
  intros [[= -> ->]|Hin].
  - by rewrite String.eqb_refl.
  - destruct (String.eqb k0 k) eqn:E; [|by apply IH].
    apply String.eqb_eq in E. subst k0. exfalso. apply Hk0.
    change k with (fst (k, v)). by apply in_map.
Qed.

End JsMapFacts.

(** The image of a map under a function on its values. *)
Section JsMapImage.

Context {V W : Type} (f : V -> W).

Local Abbreviation onValues := (JsMap.onValues f).

Lemma JsMap_image_set (m : list (string * V)) k v :
  map onValues (JsMap.set k v m) = JsMap.set k (f v) (map onValues m).
Proof.
  induction m as [|[k0 v0] m IH]; simpl; [done|].
  destruct (String.eqb k0 k); simpl; [done | by rewrite IH].
Qed.

Lemma JsMap_image_get (m : list (string * V)) k :
  JsMap.get k (map onValues m) = option_map f (JsMap.get k m).
Proof.
  induction m as [|[k0 v0] m IH]; simpl; [done|].
  by destruct (String.eqb k0 k).
Qed.

Lemma JsMap_image_keys (m : list (string * V)) : map fst (map onValues m) = map fst m.
Proof. rewrite map_map. by apply map_ext. Qed.

End JsMapImage.

(** A map built by folding [set] over a list, keyed by [key]. *)
Section JsMapBuild.

Context {A V : Type} (key : A -> string) (val : A -> V).

Lemma JsMap_fold_in (l : list A) (acc : list (string * V)) k v :
  In (k, v) (fold_left (fun acc e => JsMap.set (key e) (val e) acc) l acc) ->
  (exists e, In e l /\ key e = k /\ val e = v) \/ In (k, v) acc.
Proof.
  revert acc. induction l as [|a l IH]; intros acc; simpl; [by right|].
  intros H. destruct (IH _ H) as [(e & He & Hk & Hv)|Hin].
  - left. exists e. auto.
  - destruct (JsMap_in_set _ _ _ _ _ Hin) as [[-> ->]|Hacc]; [|by right].
    left. exists a. auto.
Qed.

Lemma JsMap_fold_get_acc (l : list A) (acc : list (string * V)) k :
  (exists v, JsMap.get k acc = Some v) ->
  exists v, JsMap.get k (fold_left (fun acc e => JsMap.set (key e) (val e) acc) l acc) = Some v.
Proof.
  revert acc. induction l as [|a l IH]; intros acc H; simpl; [done|].
  apply IH. by apply JsMap_get_set_some.
Qed.

Lemma JsMap_fold_get_elem (l : list A) (acc : list (string * V)) e :
  In e l ->
  exists v, JsMap.get (key e) (fold_left (fun acc e => JsMap.set (key e) (val e) acc) l acc) = Some v.
Proof.
  revert acc. induction l as [|a l IH]; intros acc; simpl; [done|].
  intros [->|Hin]; [|by apply IH].
  apply JsMap_fold_get_acc. rewrite JsMap_get_set_eq. by eexists.
Qed.

Lemma JsMap_fold_get (l : list A) (acc : list (string * V)) k v :
  JsMap.get k (fold_left (fun acc e => JsMap.set (key e) (val e) acc) l acc) = Some v ->
  (exists e, In e l /\ key e = k /\ val e = v) \/ JsMap.get k acc = Some v.
Proof.
  revert acc. induction l as [|a l IH]; intros acc; simpl; [by right|].
  intros H. destruct (IH _ H) as [(e & He & Hk & Hv)|Hacc].
  { left. exists e. auto. }
  destruct (string_dec (key a) k) as [E|Hne].
  - rewrite <- E, JsMap_get_set_eq in Hacc. injection Hacc as <-.
    left. exists a. auto.
  - rewrite JsMap_get_set_ne in Hacc by done. by right.
Qed.

Lemma JsMap_fold_NoDup (l : list A) (acc : list (string * V)) :
  List.NoDup (map fst acc) ->
  List.NoDup (map fst (fold_left (fun acc e => JsMap.set (key e) (val e) acc) l acc)).
Proof.
  revert acc. induction l as [|a l IH]; intros acc Hnd; simpl; [done|].
  by apply IH, JsMap_set_NoDup.
Qed.

(** The image of the built map depends on the keys and on the images of the
    values only. *)
Lemma JsMap_fold_image {W : Type} (f : V -> W) (l : list A) (acc : list (string * V)) :
  map (JsMap.onValues f) (fold_left (fun acc e => JsMap.set (key e) (val e) acc) l acc)
  = fold_left (fun acc (shape : string * W) => JsMap.set (fst shape) (snd shape) acc)
      (map (fun e => (key e, f (val e))) l) (map (JsMap.onValues f) acc).
Proof.
  revert acc. induction l as [|a l IH]; intros acc; simpl; [done|].
  by rewrite IH, JsMap_image_set.
Qed.

End JsMapBuild.

(** ** Array and reference mismatches *)

Lemma arrRefError_firstArrRefCase (found expected : PropertyType) :
  arrRefError found expected
  = match firstArrRefCase found expected with
    | Some c => arrRefMessage c
    | None => ""
    end.
Proof.
  destruct found as [ts a r], expected as [ts' a' r'].
  destruct a, r, a', r'; reflexivity.
Qed.

Lemma flagsDiffer_firstArrRefCase (found expected : PropertyType) :
  flagsDiffer found expected -> exists c, firstArrRefCase found expected = Some c.
Proof.
  destruct found as [ts a r], expected as [ts' a' r']. unfold flagsDiffer. simpl.
  destruct a, r, a', r'; intros [H|H]; try congruence; by eexists.
Qed.

Lemma arrRefMessage_nonempty (c : ArrRefCase) : arrRefMessage c <> "".
Proof. by destruct c. Qed.

Lemma flagsDiffer_test (found expected : PropertyType) :
  flagsDiffer found expected ->
  negb (Bool.eqb (array expected) (array found))
  || negb (Bool.eqb (reference expected) (reference found)) = true.
Proof.
  unfold flagsDiffer.
  destruct (array found), (array expected), (reference found), (reference expected);
    simpl; intros [H|H]; congruence.
Qed.

(** C2, as the code has it.  When the two property types have the same
    canonical string and differ in a flag, at least one of the six conditions
    holds; the message is the one of the first condition, in the order of the
    chain, that holds (every earlier condition fails); it is never empty; and
    the helper reports exactly this one message for the pair. *)
Theorem arrRefError_precedence (distictAndSorted : list string -> list string)
    (found expected : PropertyType) :
  flagsDiffer found expected ->
  typeKey distictAndSorted found = typeKey distictAndSorted expected ->
  exists c earlier later,
    arrRefCases = earlier ++ c :: later
    /\ Forall (fun c' => arrRefCondition c' found expected = false) earlier
    /\ arrRefCondition c found expected = true
    /\ arrRefError found expected = arrRefMessage c
    /\ arrRefError found expected <> ""
    /\ checkAlternativesConsistencyHelper distictAndSorted [found] [expected]
       = [{| errorMessage := arrRefMessage c; typeString := typeKey distictAndSorted found |}].
Proof.
  intros Hdiff Hkey.
  assert (Hmsg := arrRefError_firstArrRefCase found expected).
  assert (Hhelper :
    checkAlternativesConsistencyHelper distictAndSorted [found] [expected]
    = [{| errorMessage := arrRefError found expected;
          typeString := typeKey distictAndSorted found |}]).
  { unfold checkAlternativesConsistencyHelper, stringToPropertyTypeList, JsMap.entries. simpl.
    rewrite <- Hkey, String.eqb_refl, (flagsDiffer_test _ _ Hdiff). reflexivity. }
  rewrite Hhelper. clear Hhelper Hkey.
  destruct found as [ts a r], expected as [ts' a' r']. unfold flagsDiffer in Hdiff.
  simpl in Hdiff. unfold arrRefCases.
  destruct a, r, a', r'; try (exfalso; destruct Hdiff; congruence).
  all: first
    [ (exists CantBeArrayAndReference, [], [HasToBeArrayAndReference; CantBeArray; HasToBeArray;
         CantBeReference; HasToBeReference]; repeat split; try done; by repeat constructor)
    | (exists HasToBeArrayAndReference, [CantBeArrayAndReference], [CantBeArray; HasToBeArray;
         CantBeReference; HasToBeReference]; repeat split; try done; by repeat constructor)
    | (exists CantBeArray, [CantBeArrayAndReference; HasToBeArrayAndReference], [HasToBeArray;
         CantBeReference; HasToBeReference]; repeat split; try done; by repeat constructor)
    | (exists HasToBeArray, [CantBeArrayAndReference; HasToBeArrayAndReference; CantBeArray],
         [CantBeReference; HasToBeReference]; repeat split; try done; by repeat constructor)
    | (exists CantBeReference, [CantBeArrayAndReference; HasToBeArrayAndReference; CantBeArray;
         HasToBeArray], [HasToBeReference]; repeat split; try done; by repeat constructor)
    | (exists HasToBeReference, [CantBeArrayAndReference; HasToBeArrayAndReference; CantBeArray;
         HasToBeArray; CantBeReference], []; repeat split; try done; by repeat constructor) ].
Qed.

Lemma arrRefError_precedence_witness :
  exists c earlier later,
    arrRefCases = earlier ++ c :: later
    /\ Forall (fun c' => arrRefCondition c' (Sample.arrayType "A") (Sample.plainType "A") = false)
         earlier
    /\ arrRefCondition c (Sample.arrayType "A") (Sample.plainType "A") = true
    /\ arrRefError (Sample.arrayType "A") (Sample.plainType "A") = arrRefMessage c
    /\ arrRefError (Sample.arrayType "A") (Sample.plainType "A") <> ""
    /\ checkAlternativesConsistencyHelper Sample.distictAndSorted
         [Sample.arrayType "A"] [Sample.plainType "A"]
       = [{| errorMessage := arrRefMessage c;
             typeString := typeKey Sample.distictAndSorted (Sample.arrayType "A") |}].
Proof.
  apply (arrRefError_precedence Sample.distictAndSorted
           (Sample.arrayType "A") (Sample.plainType "A")).
  - left. simpl. discriminate.
  - reflexivity.
Defined.

(** C2, as stated, fails: the six conditions are not mutually exclusive.  For a
    found array reference against an expected plain value the first, the third
    and the fifth condition hold together. *)
Lemma arrRefConditions_overlap :
  flagsDiffer {| types := ["A"]; array := true; reference := true |}
              {| types := ["A"]; array := false; reference := false |}
  /\ arrRefCondition CantBeArrayAndReference
       {| types := ["A"]; array := true; reference := true |}
       {| types := ["A"]; array := false; reference := false |} = true
  /\ arrRefCondition CantBeArray
       {| types := ["A"]; array := true; reference := true |}
       {| types := ["A"]; array := false; reference := false |} = true
  /\ arrRefCondition CantBeReference
       {| types := ["A"]; array := true; reference := true |}
       {| types := ["A"]; array := false; reference := false |} = true
  /\ CantBeArrayAndReference <> CantBeArray.
Proof.
  repeat split; try reflexivity; try discriminate.
  left. simpl. discriminate.
Qed.

(** ** Diagnostics anchored to the producing rules *)

Lemma applyErrorToRuleNodes_ruleDiagnostic (nodes : list ParserRule) (typeName msg : string) :
  applyErrorToRuleNodes nodes typeName msg = map (ruleDiagnostic typeName msg) nodes.
Proof. reflexivity. Qed.

Lemma includes_In (l : list string) (e : string) : includes l e = true <-> In e l.
Proof.
  unfold includes. rewrite existsb_exists. split.
  - intros (x & Hx & E). apply String.eqb_eq in E. by subst.
  - intros H. exists e. split; [done | apply String.eqb_refl].
Qed.

Lemma not_includes_In (l : list string) (e : string) : negb (includes l e) = true <-> ~ In e l.
Proof.
  rewrite <- includes_In. destruct (includes l e); simpl; split; intros H; congruence.
Qed.

Lemma find_name_none (l : list Property) (p : Property) :
  List.find (fun e => String.eqb (name p) (name e)) l = None
  <-> ~ exists e, In e l /\ name e = name p.
Proof.
  split.
  - intros H (e & He & E). apply (find_none _ _ H) in He.
    rewrite E, String.eqb_refl in He. discriminate.
  - intros H. destruct (List.find _ l) as [e|] eqn:F; [|done].
    apply find_some in F as [He E]. apply String.eqb_eq in E.
    exfalso. apply H. by exists e.
Qed.

Lemma lacking_filter (inferred : list Property)
    (errorToRuleNodes : string -> list (Diagnostic GrammarNode)) (declared : list Property) :
  flat_map (checkLackingProperty inferred errorToRuleNodes) declared
  = flat_map (fun p => errorToRuleNodes ("A property '" +:+ name p +:+ "' is expected"))
      (List.filter
         (fun p =>
            match List.find (fun e => String.eqb (name p) (name e)) inferred with
            | Some _ => false
            | None => true
            end)
         declared).
Proof.
  induction declared as [|p declared IH]; [done|]. simpl.
  unfold checkLackingProperty at 1.
  destruct (List.find _ inferred); simpl; by rewrite IH.
Qed.

(** C10.  A message reported through [applyErrorToRuleNodes] yields one error
    per producing rule, in the order of the rules, with the suffix naming the
    returned type, anchored to the inferred-type annotation of the rule when
    there is one and to the rule otherwise, restricted to [name].  The
    diagnostics for union alternatives, for lacking properties and for
    supertype differences are made of such blocks, one per reported message. *)
Theorem rule_anchored_diagnostics
    (distictAndSorted : list string -> list string)
    (propertyTypeArrayToString : list PropertyType -> string)
    (nodes : list ParserRule) (typeName : string) :
  (forall msg,
     applyErrorToRuleNodes nodes typeName msg
     = map (fun rule =>
              {| severity := error;
                 message := msg +:+ " in a rule that returns type '" +:+ typeName +:+ "'.";
                 diagnosticInfo :=
                   {| node := match inferredType rule with
                              | Some annotation => NodeInferredType annotation
                              | None => NodeRule rule
                              end;
                      property := Some "name" |} |})
           nodes)
  /\ (forall msg, List.length (applyErrorToRuleNodes nodes typeName msg) = List.length nodes)
  /\ (forall inferred declared,
        checkAlternativesConsistency distictAndSorted inferred declared
          (applyErrorToRuleNodes nodes typeName)
        = flat_map
            (fun errorInfo =>
               map (ruleDiagnostic typeName
                      ("A type '" +:+ typeString errorInfo +:+ "' " +:+ errorMessage errorInfo))
                   nodes)
            (checkAlternativesConsistencyHelper distictAndSorted inferred declared))
  /\ (forall inferred declared errorToAssignment,
        checkPropertiesConsistency distictAndSorted propertyTypeArrayToString inferred declared
          (applyErrorToRuleNodes nodes typeName) errorToAssignment
        = flat_map (checkFoundProperty distictAndSorted propertyTypeArrayToString
                      declared errorToAssignment) inferred
          ++ flat_map
               (fun p =>
                  map (ruleDiagnostic typeName ("A property '" +:+ name p +:+ "' is expected"))
                      nodes)
               (List.filter
                  (fun p =>
                     match List.find (fun e => String.eqb (name p) (name e)) inferred with
                     | Some _ => false
                     | None => true
                     end)
                  declared))
  /\ (forall inferred declared,
        checkSuperTypesConsistency inferred declared (applyErrorToRuleNodes nodes typeName)
        = flat_map
            (fun s =>
               map (ruleDiagnostic typeName ("A super type '" +:+ s +:+ "' is not expected"))
                   nodes)
            (List.filter (fun s => negb (includes declared s)) inferred)
          ++ flat_map
               (fun s =>
                  map (ruleDiagnostic typeName ("A super type '" +:+ s +:+ "' is expected")) nodes)
               (List.filter (fun s => negb (includes inferred s)) declared)).
Proof.
  split; [reflexivity|].
  split; [intros msg; unfold applyErrorToRuleNodes; apply length_map|].
  split; [reflexivity|].
  split; [|reflexivity].
  intros inferred declared errorToAssignment.
  unfold checkPropertiesConsistency. f_equal. apply lacking_filter.
Qed.

(** ** Supertypes *)

(** C7, as the code has it.  The diagnostics of the supertype check are those
    of the symmetric difference: for each producing rule, "is not expected"
    for an inferred name absent from the declared ones and "is expected" for a
    declared name absent from the inferred ones.  Declared supertypes A and B
    against inferred A and C give, for each producing rule, the report on C
    and then, for each producing rule, the report on B: twice as many
    diagnostics as there are producing rules. *)
Theorem checkSuperTypesConsistency_symmetric_difference
    (nodes : list ParserRule) (typeName : string) (inferred declared : list string) :
  (forall d,
     In d (checkSuperTypesConsistency inferred declared (applyErrorToRuleNodes nodes typeName))
     <-> exists s rule,
           In rule nodes
           /\ ((In s inferred /\ ~ In s declared
                /\ d = ruleDiagnostic typeName ("A super type '" +:+ s +:+ "' is not expected") rule)
               \/ (In s declared /\ ~ In s inferred
                   /\ d = ruleDiagnostic typeName ("A super type '" +:+ s +:+ "' is expected") rule)))
  /\ checkSuperTypesConsistency ["A"; "C"] ["A"; "B"] (applyErrorToRuleNodes nodes typeName)
     = map (ruleDiagnostic typeName "A super type 'C' is not expected") nodes
       ++ map (ruleDiagnostic typeName "A super type 'B' is expected") nodes
  /\ List.length
       (checkSuperTypesConsistency ["A"; "C"] ["A"; "B"] (applyErrorToRuleNodes nodes typeName))
     = 2 * List.length nodes.
Proof.
  split; [|split].
  - intros d. unfold checkSuperTypesConsistency.
    rewrite in_app_iff, !in_flat_map. split.
    + intros [(s & Hs & Hd)|(s & Hs & Hd)];
        apply filter_In in Hs as [Hs Hn]; apply not_includes_In in Hn;
        rewrite applyErrorToRuleNodes_ruleDiagnostic in Hd;
        apply in_map_iff in Hd as (rule & <- & Hr); exists s, rule; split; auto.
    + intros (s & rule & Hr & [(Hs & Hn & ->)|(Hs & Hn & ->)]); [left|right];
        exists s; (split; [apply filter_In; split; [done | by apply not_includes_In]|]);
        rewrite applyErrorToRuleNodes_ruleDiagnostic; apply in_map_iff; by exists rule.
  - unfold checkSuperTypesConsistency. simpl. by rewrite !app_nil_r.
  - unfold checkSuperTypesConsistency. simpl.
    rewrite !app_nil_r, length_app. unfold applyErrorToRuleNodes. rewrite !length_map. lia.
Qed.

(** C7, as stated, fails: for an interface produced by two rules the same
    supertype sets give four diagnostics, not two. *)
Lemma checkSuperTypesConsistency_two_rules :
  List.length
    (Sample.validateTypeInfo "T"
       (InferredAndDeclared
          {| inferred :=
               IsInterface {| interface_name := "T"; properties := []; superTypes := ["A"; "C"] |};
             nodes := [Sample.ruleInferring "First" "T" []; Sample.ruleInferring "Second" "T" []] |}
          {| declared :=
               IsInterface {| interface_name := "T"; properties := []; superTypes := ["A"; "B"] |};
             decl := DeclInterface {| interfaceDecl_name := "T" |} |}))
  = 4
  /\ List.length
       (checkSuperTypesConsistency ["A"; "C"] ["A"; "B"]
          (applyErrorToRuleNodes
             [Sample.ruleInferring "First" "T" []; Sample.ruleInferring "Second" "T" []] "T"))
     <> 2.
Proof. split; [reflexivity | discriminate]. Qed.

(** ** The pass over the map *)

Section Pass.

Variable extractAssignments : AbstractElement -> list Assignment.
Variable distictAndSorted : list string -> list string.
Variable propertyTypeArrayToString : list PropertyType -> string.

Lemma validateResources_app (before after : list (string * TypeInfo)) :
  validateResources extractAssignments distictAndSorted propertyTypeArrayToString
    (before ++ after)
  = validateResources extractAssignments distictAndSorted propertyTypeArrayToString before
    ++ validateResources extractAssignments distictAndSorted propertyTypeArrayToString after.
Proof. unfold validateResources, JsMap.entries. apply flat_map_app. Qed.

Lemma validateResources_cons (typeName : string) (typeInfo : TypeInfo)
    (after : list (string * TypeInfo)) :
  validateResources extractAssignments distictAndSorted propertyTypeArrayToString
    ((typeName, typeInfo) :: after)
  = validateTypeInfo extractAssignments distictAndSorted propertyTypeArrayToString
      typeName typeInfo
    ++ validateResources extractAssignments distictAndSorted propertyTypeArrayToString after.
Proof. reflexivity. Qed.

Lemma validateTypeInfo_one_sided (typeName : string) (typeInfo : TypeInfo) :
  isInferredAndDeclared typeInfo = false ->
  validateTypeInfo extractAssignments distictAndSorted propertyTypeArrayToString
    typeName typeInfo = [].
Proof. by destruct typeInfo. Qed.

Lemma isInterface_isType (t : TypeOrInterface) : isInterface t = negb (isType t).
Proof. by destruct t. Qed.

(** The diagnostics of one entry whose two descriptions differ in kind, and
    the pass around it. *)
Lemma shape_mismatch_entry (typeName : string) (i : InferredInfo) (d : DeclaredInfo)
    (before after : list (string * TypeInfo)) :
  isType (inferred i) <> isType (declared d) ->
  validateTypeInfo extractAssignments distictAndSorted propertyTypeArrayToString
    typeName (InferredAndDeclared i d)
  = map (fun rule =>
           {| severity := error;
              message := shapeMismatchMessage typeName;
              diagnosticInfo :=
                {| node := match inferredType rule with
                           | Some annotation => NodeInferredType annotation
                           | None => NodeRule rule
                           end;
                   property := Some "name" |} |})
        (nodes i)
    ++ [{| severity := error;
           message := shapeMismatchMessage typeName;
           diagnosticInfo := {| node := declNode (decl d); property := Some "name" |} |}]
  /\ validateResources extractAssignments distictAndSorted propertyTypeArrayToString
       (before ++ (typeName, InferredAndDeclared i d) :: after)
     = validateResources extractAssignments distictAndSorted propertyTypeArrayToString before
       ++ validateTypeInfo extractAssignments distictAndSorted propertyTypeArrayToString
            typeName (InferredAndDeclared i d)
       ++ validateResources extractAssignments distictAndSorted propertyTypeArrayToString after.
Proof.
  intros Hkind. split.
  - unfold validateTypeInfo.
    destruct (inferred i) as [iu|ii], (declared d) as [du|di]; simpl in Hkind;
      try congruence; reflexivity.
  - by rewrite validateResources_app, validateResources_cons.
Qed.

End Pass.

(** ** Agreement gives no diagnostic *)

Lemma flat_map_nil {A B : Type} (f : A -> list B) (l : list A) :
  (forall x, In x l -> f x = []) -> flat_map f l = [].
Proof.
  induction l as [|a l IH]; intros H; simpl; [done|].
  rewrite (H a) by (by left). apply IH. intros x Hx. apply H. by right.
Qed.

Lemma filter_nil {A : Type} (p : A -> bool) (l : list A) :
  (forall x, In x l -> p x = false) -> List.filter p l = [].
Proof.
  induction l as [|a l IH]; intros H; simpl; [done|].
  rewrite (H a) by (by left). apply IH. intros x Hx. apply H. by right.
Qed.

Section AgreementFacts.

Variable extractAssignments : AbstractElement -> list Assignment.
Variable distictAndSorted : list string -> list string.
Variable propertyTypeArrayToString : list PropertyType -> string.

Lemma stringToPropertyTypeList_in (l : list PropertyType) (k : string) (e : PropertyType) :
  In (k, e) (stringToPropertyTypeList distictAndSorted l) ->
  In e l /\ typeKey distictAndSorted e = k.
Proof.
  intros H.
  apply (JsMap_fold_in (typeKey distictAndSorted) (fun e => e)) in H
    as [(x & Hx & Hk & Hv)|[]].
  simpl in Hv. by subst.
Qed.

Lemma stringToPropertyTypeList_get (l : list PropertyType) (k : string) (e : PropertyType) :
  JsMap.get k (stringToPropertyTypeList distictAndSorted l) = Some e ->
  In e l /\ typeKey distictAndSorted e = k.
Proof. intros H. by apply stringToPropertyTypeList_in, JsMap_get_in. Qed.

Lemma stringToPropertyTypeList_has (l : list PropertyType) (e : PropertyType) :
  In e l ->
  exists e', JsMap.get (typeKey distictAndSorted e) (stringToPropertyTypeList distictAndSorted l)
             = Some e'.
Proof.
  intros H.
  exact (JsMap_fold_get_elem (typeKey distictAndSorted) (fun e => e) l [] e H).
Qed.

Lemma sameAlternatives_no_error (inferred declared : list PropertyType) :
  sameAlternatives distictAndSorted inferred declared ->
  checkAlternativesConsistencyHelper distictAndSorted inferred declared = [].
Proof.
  intros (Hsub & _ & Hflags). unfold checkAlternativesConsistencyHelper, JsMap.entries.
  apply flat_map_nil. intros [k f] Hin.
  apply stringToPropertyTypeList_in in Hin as [Hf <-].
  destruct (Hsub f Hf) as (e & He & Hk).
  destruct (stringToPropertyTypeList_has declared e He) as (e' & Hget).
  rewrite Hk in Hget. rewrite Hget.
  apply stringToPropertyTypeList_get in Hget as [He' Hk'].
  destruct (Hflags f e' Hf He' (eq_sym Hk')) as [-> ->].
  by rewrite !Bool.eqb_reflx.
Qed.

Lemma sameAlternativeSequence_no_error (inferred declared : list PropertyType) :
  sameAlternativeSequence distictAndSorted inferred declared ->
  checkAlternativesConsistencyHelper distictAndSorted inferred declared = [].
Proof.
  intros Hsame. unfold checkAlternativesConsistencyHelper, JsMap.entries.
  set (flags := fun e : PropertyType => (array e, reference e)).
  assert (Himage :
    map (JsMap.onValues flags) (stringToPropertyTypeList distictAndSorted inferred)
    = map (JsMap.onValues flags) (stringToPropertyTypeList distictAndSorted declared)).
  { unfold stringToPropertyTypeList.
    rewrite (JsMap_fold_image (typeKey distictAndSorted) (fun e => e) flags inferred []).
    rewrite (JsMap_fold_image (typeKey distictAndSorted) (fun e => e) flags declared []).
    by rewrite (Hsame : map (fun e => (typeKey distictAndSorted e, flags e)) inferred = _). }
  apply flat_map_nil. intros [k found] Hin.
  apply (in_map (JsMap.onValues flags)) in Hin. rewrite Himage in Hin.
  apply JsMap_in_get_NoDup in Hin.
  2:{ rewrite JsMap_image_keys.
      apply (JsMap_fold_NoDup (typeKey distictAndSorted) (fun e => e) declared []).
      constructor. }
  rewrite JsMap_image_get in Hin. simpl in Hin.
  destruct (JsMap.get k (stringToPropertyTypeList distictAndSorted declared)) as [expected|];
    [|done].
  injection Hin as Harray Hreference. by rewrite Harray, Hreference, !Bool.eqb_reflx.
Qed.

Lemma sameProperties_no_error (inferred declared : list Property)
    (errorToRuleNodes : string -> list (Diagnostic GrammarNode))
    (errorToAssignment : string -> string -> list (Diagnostic GrammarNode)) :
  sameProperties propertyTypeArrayToString inferred declared ->
  checkPropertiesConsistency distictAndSorted propertyTypeArrayToString inferred declared
    errorToRuleNodes errorToAssignment = [].
Proof.
  intros (Hfound & Hlack & Hsame). unfold checkPropertiesConsistency.
  rewrite !flat_map_nil; [done| |].
  - intros e He. unfold checkLackingProperty.
    destruct (List.find _ inferred) eqn:F; [done|].
    apply find_name_none in F. exfalso. apply F. by apply Hlack.
  - intros f Hf. unfold checkFoundProperty.
    destruct (List.find _ declared) as [e|] eqn:F.
    + apply find_some in F as [He E]. apply String.eqb_eq in E.
      destruct (Hsame f e Hf He E) as [Hstr Hopt].
      unfold checkPropertyTypeAlternatives, checkPropertyOptional.
      rewrite Hstr, String.eqb_refl, Hopt. simpl.
      by destruct (checkOptional f e), (optional e).
    + apply find_name_none in F. exfalso. apply F. by apply Hfound.
Qed.

Lemma sameSuperTypes_no_error (inferred declared : list string)
    (errorToRuleNodes : string -> list (Diagnostic GrammarNode)) :
  sameSuperTypes inferred declared ->
  checkSuperTypesConsistency inferred declared errorToRuleNodes = [].
Proof.
  intros Hsame. unfold checkSuperTypesConsistency.
  rewrite !filter_nil; [done| |]; intros s Hs.
  - apply Hsame in Hs. apply includes_In in Hs. by rewrite Hs.
  - apply Hsame in Hs. apply includes_In in Hs. by rewrite Hs.
Qed.

(** C1.  For a name with an inferred and a declared description of the same
    shape kind and the same content (the same properties, supertypes and union
    alternatives), the checker emits no diagnostic; the diagnostics of the pass
    are those of the other names. *)
Theorem agreement_no_diagnostics (typeName : string) (i : InferredInfo) (d : DeclaredInfo)
    (before after : list (string * TypeInfo)) :
  agree distictAndSorted propertyTypeArrayToString (inferred i) (declared d) ->
  validateTypeInfo extractAssignments distictAndSorted propertyTypeArrayToString
    typeName (InferredAndDeclared i d) = []
  /\ validateResources extractAssignments distictAndSorted propertyTypeArrayToString
       (before ++ (typeName, InferredAndDeclared i d) :: after)
     = validateResources extractAssignments distictAndSorted propertyTypeArrayToString before
       ++ validateResources extractAssignments distictAndSorted propertyTypeArrayToString after.
Proof.
  intros Hagree.
  assert (Hnil : validateTypeInfo extractAssignments distictAndSorted propertyTypeArrayToString
                   typeName (InferredAndDeclared i d) = []).
  { unfold validateTypeInfo.
    inversion Hagree as [iu du Halt Hi Hd|iu du Hseq Hi Hd|ii di Hprops Hsupers Hi Hd].
    - unfold checkAlternativesConsistency.
      by rewrite (sameAlternatives_no_error _ _ Halt).
    - unfold checkAlternativesConsistency.
      by rewrite (sameAlternativeSequence_no_error _ _ Hseq).
    - by rewrite (sameProperties_no_error _ _ _ _ Hprops), (sameSuperTypes_no_error _ _ _ Hsupers). }
  split; [exact Hnil|].
  by rewrite validateResources_app, validateResources_cons, Hnil.
Qed.

End AgreementFacts.

(** ** The combined message of a property *)

Lemma string_append_assoc (a b c : string) : (a +:+ b) +:+ c = a +:+ (b +:+ c).
Proof.
  induction a as [|x a IH]; [done|].
  change (String x ((a +:+ b) +:+ c) = String x (a +:+ (b +:+ c))). by f_equal.
Qed.

Lemma string_append_String (x : ascii) (a b : string) : String x a +:+ b = String x (a +:+ b).
Proof. reflexivity. Qed.

Lemma string_append_empty (a : string) : "" +:+ a = a.
Proof. reflexivity. Qed.

Lemma replaceFinalSemicolon_end (s : string) :
  replaceFinalSemicolon (s +:+ ";") = s +:+ ".".
Proof.
  induction s as [|c s IH]; [reflexivity|].
  destruct s as [|c' s]; [reflexivity|].
  change (String c (replaceFinalSemicolon (String c' s +:+ ";")) = String c (String c' s +:+ ".")).
  by f_equal.
Qed.

Ltac string_normalize :=
  repeat first
    [ rewrite string_append_assoc
    | rewrite string_append_String
    | rewrite string_append_empty ].

Lemma concat_cons_cons (sep x y : string) (l : list string) :
  String.concat sep (x :: y :: l) = x +:+ sep +:+ String.concat sep (y :: l).
Proof. reflexivity. Qed.

Lemma fold_clauses (rest : list ErrorInfo) (prefix : string) (e : ErrorInfo) :
  fold_left
    (fun resultError errorInfo =>
       resultError +:+ " '" +:+ typeString errorInfo +:+ "' " +:+ errorMessage errorInfo +:+ ";")
    rest (prefix +:+ " " +:+ mismatchClause e +:+ ";")
  = (prefix +:+ " " +:+ String.concat "; " (map mismatchClause (e :: rest))) +:+ ";".
Proof.
  revert prefix e. induction rest as [|e' rest IH]; intros prefix e.
  - cbn [fold_left map String.concat]. by string_normalize.
  - cbn [fold_left map].
    replace ((prefix +:+ " " +:+ mismatchClause e +:+ ";")
             +:+ " '" +:+ typeString e' +:+ "' " +:+ errorMessage e' +:+ ";")
      with ((prefix +:+ " " +:+ mismatchClause e +:+ ";") +:+ " " +:+ mismatchClause e' +:+ ";")
      by (unfold mismatchClause; by string_normalize).
    rewrite IH, concat_cons_cons. cbn [map].
    generalize (String.concat "; " (mismatchClause e' :: map mismatchClause rest)).
    intros tail. unfold mismatchClause. by string_normalize.
Qed.

Lemma resultError_combinedMessage (foundProperty : Property)
    (foundStringType expectedStringType : string) (errors : list ErrorInfo) :
  errors <> [] ->
  resultError foundProperty foundStringType expectedStringType errors
  = combinedMessage (name foundProperty) foundStringType expectedStringType errors.
Proof.
  destruct errors as [|e rest]; [done|]. intros _.
  unfold resultError, combinedMessage. cbn [fold_left].
  replace (baseError (name foundProperty) foundStringType expectedStringType
           +:+ " '" +:+ typeString e +:+ "' " +:+ errorMessage e +:+ ";")
    with (baseError (name foundProperty) foundStringType expectedStringType
          +:+ " " +:+ mismatchClause e +:+ ";").
  2:{ unfold mismatchClause. by string_normalize. }
  rewrite fold_clauses, replaceFinalSemicolon_end.
  unfold baseError. generalize (String.concat "; " (map mismatchClause (e :: rest))).
  intros tail. by string_normalize.
Qed.

(** ** Matched properties *)

Section PropertyFacts.

Variable extractAssignments : AbstractElement -> list Assignment.
Variable distictAndSorted : list string -> list string.
Variable propertyTypeArrayToString : list PropertyType -> string.

Lemma applyErrorToAssignment_assignmentNodeFor (nodes : list ParserRule)
    (propertyName msg : string) :
  applyErrorToAssignment extractAssignments nodes propertyName msg
  = match assignmentNodeFor extractAssignments nodes propertyName with
    | Some assignment => [assignmentDiagnostic msg assignment]
    | None => []
    end.
Proof. reflexivity. Qed.

(** C5, as the code has it.  For an inferred property matched by name with a
    declared one, the diagnostics are those of the type alternatives followed
    by those of the optionality.  When the two type-alternative strings differ
    and the alternatives check yields mismatches, one combined diagnostic is
    emitted on the assignment node of the property name, provided the
    producing rules have one, and none otherwise; when the check yields no
    mismatch, none is emitted. *)
Theorem property_type_mismatch_diagnostic (nodes : list ParserRule) (declared : list Property)
    (foundProperty expectedProperty : Property) :
  List.find (fun e => String.eqb (name foundProperty) (name e)) declared = Some expectedProperty ->
  propertyTypeArrayToString (typeAlternatives foundProperty)
  <> propertyTypeArrayToString (typeAlternatives expectedProperty) ->
  checkFoundProperty distictAndSorted propertyTypeArrayToString declared
    (applyErrorToAssignment extractAssignments nodes) foundProperty
  = checkPropertyTypeAlternatives distictAndSorted propertyTypeArrayToString
      foundProperty expectedProperty (applyErrorToAssignment extractAssignments nodes)
    ++ checkPropertyOptional foundProperty expectedProperty
         (applyErrorToAssignment extractAssignments nodes)
  /\ checkPropertyTypeAlternatives distictAndSorted propertyTypeArrayToString
       foundProperty expectedProperty (applyErrorToAssignment extractAssignments nodes)
     = match checkAlternativesConsistencyHelper distictAndSorted
               (typeAlternatives foundProperty) (typeAlternatives expectedProperty),
             assignmentNodeFor extractAssignments nodes (name foundProperty) with
       | (_ :: _) as errors, Some assignment =>
           [assignmentDiagnostic
              (combinedMessage (name foundProperty)
                 (propertyTypeArrayToString (typeAlternatives foundProperty))
                 (propertyTypeArrayToString (typeAlternatives expectedProperty))
                 errors)
              assignment]
       | _, _ => []
       end.
Proof.
  intros Hfind Hdiff. split.
  - unfold checkFoundProperty. by rewrite Hfind.
  - unfold checkPropertyTypeAlternatives.
    apply String.eqb_neq in Hdiff. rewrite Hdiff. cbn [negb].
    destruct (checkAlternativesConsistencyHelper _ _ _) as [|e errors] eqn:Herrors; [done|].
    cbn [List.length Nat.ltb Nat.leb].
    rewrite applyErrorToAssignment_assignmentNodeFor.
    destruct (assignmentNodeFor _ _ _); [|done].
    by rewrite resultError_combinedMessage.
Qed.

(** The optionality check of one matched pair of properties. *)
Lemma checkPropertyOptional_diagnostic (nodes : list ParserRule)
    (foundProperty expectedProperty : Property) :
  (forall diagnostic,
     In diagnostic
        (checkPropertyOptional foundProperty expectedProperty
           (applyErrorToAssignment extractAssignments nodes))
     <-> (~ singleArrayAlternativeCase foundProperty
          /\ ~ singleArrayAlternativeCase expectedProperty
          /\ optional expectedProperty = false
          /\ optional foundProperty = true
          /\ exists assignment,
               assignmentNodeFor extractAssignments nodes (name foundProperty) = Some assignment
               /\ diagnostic
                  = assignmentDiagnostic
                      ("A property '" +:+ name foundProperty +:+ "' can't be optional.")
                      assignment))
  /\ List.length
       (checkPropertyOptional foundProperty expectedProperty
          (applyErrorToAssignment extractAssignments nodes)) <= 1.
Proof.
  assert (Hsingle : forall p,
            singleArrayAlternative (typeAlternatives p) = true <-> singleArrayAlternativeCase p).
  { intros p. unfold singleArrayAlternativeCase.
    destruct (typeAlternatives p) as [|a [|b l]]; simpl; split;
      try discriminate; try (intros (x & [=] & _); fail).
    - intros H. by exists a.
    - by intros (x & [= ->] & H). }
  assert (Hnot : forall p,
            singleArrayAlternative (typeAlternatives p) = false <-> ~ singleArrayAlternativeCase p).
  { intros p. rewrite <- Hsingle. by destruct (singleArrayAlternative _). }
  unfold checkPropertyOptional, checkOptional.
  rewrite applyErrorToAssignment_assignmentNodeFor. split.
  - intros diagnostic. split.
    + destruct (singleArrayAlternative (typeAlternatives foundProperty)) eqn:Hf; [done|].
      destruct (singleArrayAlternative (typeAlternatives expectedProperty)) eqn:He; [done|].
      destruct (optional expectedProperty); [done|].
      destruct (optional foundProperty); [|done]. cbn.
      destruct (assignmentNodeFor _ _ _) as [assignment|]; [|done].
      intros [<-|[]]. repeat split; try by apply Hnot. by exists assignment.
    + intros (Hf & He & -> & -> & assignment & -> & ->).
      apply Hnot in Hf, He. rewrite Hf, He. by left.
  - destruct (_ && _); [|simpl; lia].
    destruct (assignmentNodeFor _ _ _); simpl; lia.
Qed.

End PropertyFacts.

(** ** The merge of the inferred and the declared types *)

Lemma fold_left_ext {A B : Type} (f g : A -> B -> A) (l : list B) (a : A) :
  (forall a x, f a x = g a x) -> fold_left f l a = fold_left g l a.
Proof.
  intros H. revert a. induction l as [|x l IH]; intros a; simpl; [done|].
  by rewrite H, IH.
Qed.

(** A map built by a fold that sets a key only for some elements. *)
Section JsMapBuildSome.

Context {A V : Type} (key : A -> string) (val : A -> option V).

Local Abbreviation setSome := (JsMap.setSome key val).

Lemma JsMap_foldSome_get (l : list A) (acc : list (string * V)) k v :
  JsMap.get k (fold_left setSome l acc) = Some v ->
  (exists e, In e l /\ key e = k /\ val e = Some v) \/ JsMap.get k acc = Some v.
Proof.
  revert acc. induction l as [|a l IH]; intros acc; simpl; [by right|].
  intros H. destruct (IH _ H) as [(e & He & Hk & Hv)|Hacc].
  { left. exists e. auto. }
  unfold JsMap.setSome in Hacc. destruct (val a) as [va|] eqn:Hva; [|by right].
  destruct (string_dec (key a) k) as [E|Hne].
  - rewrite <- E, JsMap_get_set_eq in Hacc. injection Hacc as <-.
    left. exists a. auto.
  - rewrite JsMap_get_set_ne in Hacc by done. by right.
Qed.

Lemma JsMap_foldSome_get_acc (l : list A) (acc : list (string * V)) k :
  (exists v, JsMap.get k acc = Some v) ->
  exists v, JsMap.get k (fold_left setSome l acc) = Some v.
Proof.
  revert acc. induction l as [|a l IH]; intros acc H; simpl; [done|].
  apply IH. unfold JsMap.setSome. destruct (val a); [|done]. by apply JsMap_get_set_some.
Qed.

Lemma JsMap_foldSome_get_elem (l : list A) (acc : list (string * V)) e v :
  In e l -> val e = Some v ->
  exists v', JsMap.get (key e) (fold_left setSome l acc) = Some v'.
Proof.
  revert acc. induction l as [|a l IH]; intros acc; simpl; [done|].
  intros [->|Hin] Hv; [|by apply IH].
  apply JsMap_foldSome_get_acc. unfold JsMap.setSome. rewrite Hv, JsMap_get_set_eq. by eexists.
Qed.

End JsMapBuildSome.

Section MergeFacts.

Variable getRuleType : ParserRule -> string.
Variable Grammar : Type.
Variable collectAllAstResources : list Grammar -> AstResources.
Variable collectInferredTypes : list ParserRule -> list ParserRule -> AstTypes.
Variable collectDeclaredTypes : list InterfaceDecl -> list TypeDecl -> AstTypes -> AstTypes.

Local Abbreviation inferredNames :=
  (inferredNames Grammar collectAllAstResources collectInferredTypes).
Local Abbreviation declaredNames :=
  (declaredNames Grammar collectAllAstResources collectInferredTypes collectDeclaredTypes).

(** C3, as the code has it.  The returned map is folded from the declared
    types alone: a name has an entry exactly when it is a declared name whose
    declaration node is found.  The entry carries the inferred description as
    well when the name is also inferred, and is a declared-only entry
    otherwise; there is no inferred-only entry, and a name that is not
    declared has no entry. *)
Theorem collectValidationResources_entries (grammar : Grammar) (typeName : string) :
  let resources :=
    collectValidationResources getRuleType Grammar collectAllAstResources
      collectInferredTypes collectDeclaredTypes grammar in
  ((exists typeInfo, JsMap.get typeName resources = Some typeInfo)
   <-> (In typeName (declaredNames grammar)
        /\ exists declaration,
             findDeclNode (collectAllAstResources [grammar]) typeName = Some declaration))
  /\ (forall typeInfo,
        JsMap.get typeName resources = Some typeInfo ->
        match typeInfo with
        | OnlyInferred _ => False
        | OnlyDeclared _ => ~ In typeName (inferredNames grammar)
        | InferredAndDeclared _ _ => In typeName (inferredNames grammar)
        end)
  /\ (~ In typeName (declaredNames grammar) -> JsMap.get typeName resources = None).
Proof.
  set (astResources := collectAllAstResources [grammar]).
  set (inferredTypes :=
         collectInferredTypes (parserRules astResources) (datatypeRules astResources)).
  set (declaredTypes :=
         collectDeclaredTypes (interfaceDecls astResources) (typeDecls astResources)
           inferredTypes).
  set (inferredInfo :=
         fold_left
           (fun acc type =>
              JsMap.set (typeName_of type)
                {| inferred := type;
                   nodes := MultiMap.get (typeName_of type)
                              (getTypeNameToRules getRuleType astResources) |} acc)
           (mergeTypesAndInterfaces inferredTypes) []).
  set (val := fun type : TypeOrInterface =>
         match findDeclNode astResources (typeName_of type) with
         | Some node =>
             Some match JsMap.get (typeName_of type) inferredInfo with
                  | Some i => InferredAndDeclared i {| declared := type; decl := node |}
                  | None => OnlyDeclared {| declared := type; decl := node |}
                  end
         | None => None
         end).
  assert (Hres :
    collectValidationResources getRuleType Grammar collectAllAstResources
      collectInferredTypes collectDeclaredTypes grammar
    = fold_left (JsMap.setSome typeName_of val) (mergeTypesAndInterfaces declaredTypes) []).
  { unfold collectValidationResources. apply fold_left_ext. intros acc type.
    unfold JsMap.setSome, val. by destruct (findDeclNode _ _). }
  assert (Hinferred : forall n,
    (exists i, JsMap.get n inferredInfo = Some i) <-> In n (inferredNames grammar)).
  { intros n. unfold inferredNames. fold astResources inferredTypes. split.
    - intros [i Hi].
      apply (JsMap_fold_get typeName_of
               (fun type => {| inferred := type;
                               nodes := MultiMap.get (typeName_of type)
                                          (getTypeNameToRules getRuleType astResources) |}))
        in Hi as [(e & He & <- & _)|Hi]; [|done].
      by apply in_map.
    - intros Hn. apply in_map_iff in Hn as (e & <- & He).
      exact (JsMap_fold_get_elem typeName_of _ _ [] e He). }
  intros resources. subst resources. rewrite Hres.
  assert (Hentry : forall typeInfo,
    JsMap.get typeName
      (fold_left (JsMap.setSome typeName_of val) (mergeTypesAndInterfaces declaredTypes) [])
    = Some typeInfo ->
    exists e, In e (mergeTypesAndInterfaces declaredTypes)
              /\ typeName_of e = typeName /\ val e = Some typeInfo).
  { intros typeInfo H. by apply JsMap_foldSome_get in H as [?|?]. }
  assert (Hdeclared : forall typeInfo,
    JsMap.get typeName
      (fold_left (JsMap.setSome typeName_of val) (mergeTypesAndInterfaces declaredTypes) [])
    = Some typeInfo -> In typeName (declaredNames grammar)).
  { intros typeInfo H. apply Hentry in H as (e & He & <- & _).
    unfold declaredNames. fold astResources inferredTypes declaredTypes. by apply in_map. }
  split; [split|split].
  - intros [typeInfo H]. split; [by eapply Hdeclared|].
    apply Hentry in H as (e & He & <- & Hv). unfold val in Hv.
    destruct (findDeclNode astResources (typeName_of e)) as [node|]; [by exists node | done].
  - intros [Hn [node Hnode]]. unfold declaredNames in Hn.
    fold astResources inferredTypes declaredTypes in Hn.
    apply in_map_iff in Hn as (e & <- & He).
    eapply JsMap_foldSome_get_elem; [done|]. unfold val. by rewrite Hnode.
  - intros typeInfo H. apply Hentry in H as (e & He & <- & Hv). unfold val in Hv.
    destruct (findDeclNode astResources (typeName_of e)) as [node|]; [|done].
    injection Hv as <-.
    destruct (JsMap.get (typeName_of e) inferredInfo) as [i|] eqn:Hi.
    + apply Hinferred. by exists i.
    + intros Hn. apply Hinferred in Hn as [i Hi']. congruence.
  - intros Hn.
    destruct (JsMap.get typeName _) as [typeInfo|] eqn:H; [|done].
    exfalso. apply Hn. by eapply Hdeclared.
Qed.

End MergeFacts.

(** C3, as stated, fails: the grammar with the single rule [X] and no
    declaration has the inferred type [X], and the returned map has no entry
    for it (it has no entry at all). *)
Lemma collectValidationResources_drops_inferred_only :
  In "X"
     (inferredNames AstResources Sample.collectAllAstResources Sample.collectInferredTypes
        {| parserRules := [Sample.rule "X" []]; datatypeRules := [];
           interfaceDecls := []; typeDecls := [] |})
  /\ JsMap.get "X"
       (collectValidationResources Sample.getRuleType AstResources
          Sample.collectAllAstResources Sample.collectInferredTypes Sample.collectDeclaredTypes
          {| parserRules := [Sample.rule "X" []]; datatypeRules := [];
             interfaceDecls := []; typeDecls := [] |})
     = None
  /\ collectValidationResources Sample.getRuleType AstResources
       Sample.collectAllAstResources Sample.collectInferredTypes Sample.collectDeclaredTypes
       {| parserRules := [Sample.rule "X" []]; datatypeRules := [];
          interfaceDecls := []; typeDecls := [] |}
     = [].
Proof. split; [by left | split; reflexivity]. Qed.

(** ** The registry *)

Section MultiMapFacts.

Context {V : Type}.
Implicit Types (m : gmap string (list V)) (k : string) (v : V).

Lemma MultiMap_get_add_eq m k v :
  MultiMap.get k (MultiMap.add k v m) = MultiMap.get k m ++ [v].
Proof.
  unfold MultiMap.get, MultiMap.add.
  destruct (m !! k) as [values|] eqn:E; by rewrite lookup_insert_eq.
Qed.

Lemma MultiMap_get_add_ne m k k' v :
  k <> k' -> MultiMap.get k' (MultiMap.add k v m) = MultiMap.get k' m.
Proof.
  intros Hne. unfold MultiMap.get, MultiMap.add.
  destruct (m !! k) as [values|] eqn:E; by rewrite lookup_insert_ne.
Qed.

Lemma MultiMap_get_add_in m k k' v x :
  In x (MultiMap.get k' (MultiMap.add k v m)) <->
  In x (MultiMap.get k' m) \/ (k' = k /\ x = v).
Proof.
  destruct (string_dec k k') as [->|Hne].
  - rewrite MultiMap_get_add_eq, in_app_iff. simpl. intuition.
  - rewrite MultiMap_get_add_ne by done. intuition congruence.
Qed.

End MultiMapFacts.

Section RegistryFacts.

Variable Node : Type.
Variable This : Type.
Variable CancellationToken : Type.
Variable getAllTypes : list string.
Variable isSubtype : string -> string -> bool.
Variable isOperationCancelled : Thrown -> bool.

Implicit Types (check : ValidationCheck Node This CancellationToken)
  (validationChecks : gmap string (list (ValidationCheck Node This CancellationToken))).

Lemma doRegister_in (types : list string) (type : string) check validationChecks
    (T : string) (c : ValidationCheck Node This CancellationToken) :
  In c (MultiMap.get T
          (fold_left
             (fun acc subtype =>
                if isSubtype subtype type then MultiMap.add subtype check acc else acc)
             types validationChecks))
  <-> In c (MultiMap.get T validationChecks)
      \/ (In T types /\ isSubtype T type = true /\ c = check).
Proof.
  revert validationChecks. induction types as [|t types IH]; intros validationChecks; simpl.
  - naive_solver.
  - rewrite IH. destruct (isSubtype t type) eqn:Hsub.
    + rewrite MultiMap_get_add_in. split.
      * intros [[H|[-> ->]]|(H1 & H2 & H3)]; [by left | right; auto | right; auto].
      * intros [H|([->|H1] & H2 & ->)]; [left; by left | left; by right | right; auto].
    + split.
      * intros [H|(H1 & H2 & H3)]; [by left | right; auto].
      * intros [H|([->|H1] & H2 & H3)]; [by left | congruence | right; auto].
Qed.

Lemma getChecks_doRegister (type : string) check validationChecks (T : string)
    (c : ValidationCheck Node This CancellationToken) :
  In c (getChecks T (doRegister getAllTypes isSubtype type check validationChecks))
  <-> In c (getChecks T validationChecks)
      \/ (In T getAllTypes /\ isSubtype T type = true /\ c = check).
Proof. apply doRegister_in. Qed.

Lemma getChecks_register_many (type : string) (thisObj : This)
    (checks : list (ValidationCheck Node This CancellationToken)) validationChecks (T : string)
    (c : ValidationCheck Node This CancellationToken) :
  In c (getChecks T
          (fold_left
             (fun acc check =>
                doRegister getAllTypes isSubtype type
                  (wrapValidationException isOperationCancelled check thisObj) acc)
             checks validationChecks))
  <-> In c (getChecks T validationChecks)
      \/ (In T getAllTypes /\ isSubtype T type = true
          /\ exists check, In check checks
                           /\ c = wrapValidationException isOperationCancelled check thisObj).
Proof.
  revert validationChecks. induction checks as [|check checks IH]; intros validationChecks; simpl.
  - naive_solver.
  - rewrite IH, getChecks_doRegister. naive_solver.
Qed.

Lemma getChecks_register_value (type : string) (value : ChecksValue Node This CancellationToken)
    (thisObj : This) validationChecks (T : string)
    (c : ValidationCheck Node This CancellationToken) :
  In c (getChecks T
          match value with
          | ManyChecks ch =>
              fold_left
                (fun acc check =>
                   doRegister getAllTypes isSubtype type
                     (wrapValidationException isOperationCancelled check thisObj) acc)
                ch validationChecks
          | OneCheck ch =>
              doRegister getAllTypes isSubtype type
                (wrapValidationException isOperationCancelled ch thisObj) validationChecks
          | NoCheck => validationChecks
          end)
  <-> In c (getChecks T validationChecks)
      \/ (In T getAllTypes /\ isSubtype T type = true
          /\ exists check, In check (checksOf value)
               /\ c = wrapValidationException isOperationCancelled check thisObj).
Proof.
  destruct value as [ch|ch|]; simpl.
  - rewrite getChecks_doRegister. naive_solver.
  - apply getChecks_register_many.
  - naive_solver.
Qed.

Lemma getChecks_register (checksRecord : list (string * ChecksValue Node This CancellationToken))
    (thisObj : This) validationChecks (T : string)
    (c : ValidationCheck Node This CancellationToken) :
  In c (getChecks T
          (register getAllTypes isSubtype isOperationCancelled checksRecord thisObj
             validationChecks))
  <-> In c (getChecks T validationChecks)
      \/ (In T getAllTypes
          /\ exists type value check,
               In (type, value) checksRecord /\ In check (checksOf value)
               /\ isSubtype T type = true
               /\ c = wrapValidationException isOperationCancelled check thisObj).
Proof.
  unfold register. revert validationChecks.
  induction checksRecord as [|[type value] checksRecord IH]; intros validationChecks; simpl.
  - naive_solver.
  - rewrite IH, getChecks_register_value. clear IH. split.
    + intros [[H|(H1 & H2 & check & H3 & ->)]|(H1 & type' & value' & check & H2 & H3 & H4 & ->)].
      * by left.
      * right. split; [done|]. exists type, value, check. auto.
      * right. split; [done|]. exists type', value', check. auto.
    + intros [H|(H1 & type' & value' & check & [[= <- <-]|H2] & H3 & H4 & ->)].
      * left. by left.
      * left. right. repeat split; [done..|]. by exists check.
      * right. split; [done|]. by exists type', value', check.
Qed.

(** The wrapper, case by case.  Every check stored by [register] is a wrapper
    made by [wrapValidationException].  When the wrapped check raises a
    failure that is not the cancellation signal and whose message can be
    computed (an [Error], or a value that [String] converts), the wrapper adds
    exactly one error "An error occurred during validation: <message>" on the
    node under check to what the check had accepted, logs the failure, and its
    stack when it has one, and completes normally.  When the check raises the
    cancellation signal, the wrapper raises it unchanged, and it leaves a check
    that completes as it is.  When the conversion of the thrown value raises,
    the wrapper logs the failure, accepts nothing more and raises what the
    conversion raised. *)
Lemma wrapValidationException_isolates
    (check : ValidationCheck Node This CancellationToken) (thisObj receiver : This)
    (node : Node) (cancelToken : CancellationToken) :
  (forall err message,
     outcome (check thisObj node cancelToken) = Threw err ->
     isOperationCancelled err = false ->
     thrownMessage err = inl message ->
     accepted (wrapValidationException isOperationCancelled check thisObj receiver node cancelToken)
     = accepted (check thisObj node cancelToken)
       ++ [{| severity := error;
              message := "An error occurred during validation: " +:+ message;
              diagnosticInfo := {| node := node; property := None |} |}]
     /\ message = match err with
                  | ErrorObject e => error_message e
                  | OtherValue asString => asString
                  | Unprintable _ => message
                  end
     /\ outcome (wrapValidationException isOperationCancelled check thisObj receiver node
                   cancelToken)
        = Returned
     /\ logged (wrapValidationException isOperationCancelled check thisObj receiver node
                  cancelToken)
        = logged (check thisObj node cancelToken) ++ LogFailure err :: stackLog err
     /\ (forall e trace,
           err = ErrorObject e -> stack e = Some trace -> trace <> "" ->
           stackLog err = [LogStack trace]))
  /\ (forall err,
        outcome (check thisObj node cancelToken) = Threw err ->
        isOperationCancelled err = true ->
        wrapValidationException isOperationCancelled check thisObj receiver node cancelToken
        = check thisObj node cancelToken)
  /\ (outcome (check thisObj node cancelToken) = Returned ->
      wrapValidationException isOperationCancelled check thisObj receiver node cancelToken
      = check thisObj node cancelToken)
  /\ (forall checksRecord validationChecks T c,
        In c (getChecks T
                (register getAllTypes isSubtype isOperationCancelled checksRecord thisObj
                   validationChecks)) ->
        In c (getChecks T validationChecks)
        \/ exists checked,
             c = wrapValidationException isOperationCancelled checked thisObj)
  /\ (forall err raised,
        outcome (check thisObj node cancelToken) = Threw err ->
        isOperationCancelled err = false ->
        thrownMessage err = inr raised ->
        wrapValidationException isOperationCancelled check thisObj receiver node cancelToken
        = {| accepted := accepted (check thisObj node cancelToken);
             logged := logged (check thisObj node cancelToken) ++ [LogFailure err];
             outcome := Threw raised |}).
Proof.
  split; [|split; [|split; [|split]]].
  - intros err message Hthrew Hcancel Hmessage. unfold wrapValidationException.
    rewrite Hthrew, Hcancel, Hmessage. cbn [accepted logged outcome].
    split; [done|]. split; [by destruct err; simpl in Hmessage; try injection Hmessage|].
    split; [done|]. split; [done|].
    intros e trace -> Hstack Hne. unfold stackLog. rewrite Hstack.
    apply String.eqb_neq in Hne. by rewrite Hne.
  - intros err Hthrew Hcancel. unfold wrapValidationException. by rewrite Hthrew, Hcancel.
  - intros Hreturned. unfold wrapValidationException. by rewrite Hreturned.
  - intros checksRecord validationChecks T c Hc.
    apply getChecks_register in Hc as [Hc|(_ & type & value & checked & _ & _ & _ & ->)];
      [by left | right; by exists checked].
  - intros err raised Hthrew Hcancel Hmessage. unfold wrapValidationException.
    by rewrite Hthrew, Hcancel, Hmessage.
Qed.

(** C9.  Registering a check under a type name stores its wrapper under every
    type name of the oracle that is a subtype of that name; what was stored
    before stays.  Hence, after any sequence of registrations, the plain
    lookup [getChecks] of a type name contains the wrapper of every check
    registered under a name of which it is a subtype. *)
Theorem getChecks_includes_ancestor_checks
    (checksRecord : list (string * ChecksValue Node This CancellationToken)) (thisObj : This)
    (S T : string) (value : ChecksValue Node This CancellationToken)
    (check : ValidationCheck Node This CancellationToken) :
  In (S, value) checksRecord ->
  In check (checksOf value) ->
  In T getAllTypes ->
  isSubtype T S = true ->
  (forall validationChecks,
     In (wrapValidationException isOperationCancelled check thisObj)
        (getChecks T
           (register getAllTypes isSubtype isOperationCancelled checksRecord thisObj
              validationChecks)))
  /\ (forall other otherThis validationChecks c,
        In c (getChecks T validationChecks) ->
        In c (getChecks T
                (register getAllTypes isSubtype isOperationCancelled other otherThis
                   validationChecks)))
  /\ (forall calls,
        In (checksRecord, thisObj) calls ->
        In (wrapValidationException isOperationCancelled check thisObj)
           (getChecks T (registerAll getAllTypes isSubtype isOperationCancelled calls ∅)))
  /\ (forall validationChecks,
        getChecks T validationChecks = default [] (validationChecks !! T)).
Proof.
  intros Hrecord Hcheck HT Hsub.
  assert (Hone : forall validationChecks,
            In (wrapValidationException isOperationCancelled check thisObj)
               (getChecks T
                  (register getAllTypes isSubtype isOperationCancelled checksRecord thisObj
                     validationChecks))).
  { intros validationChecks. apply getChecks_register. right. split; [done|].
    by exists S, value, check. }
  assert (Hkeep : forall other otherThis validationChecks c,
            In c (getChecks T validationChecks) ->
            In c (getChecks T
                    (register getAllTypes isSubtype isOperationCancelled other otherThis
                       validationChecks))).
  { intros other otherThis validationChecks c Hc. apply getChecks_register. by left. }
  split; [exact Hone|]. split; [exact Hkeep|]. split; [|done].
  intros calls. unfold registerAll. generalize (∅ : gmap string (list (ValidationCheck Node This CancellationToken))).
  induction calls as [|[other otherThis] calls IH]; intros validationChecks; [done|].
  intros [[= -> ->]|Hin]; simpl.
  - clear IH. generalize (register getAllTypes isSubtype isOperationCancelled checksRecord
                            thisObj validationChecks), (Hone validationChecks).
    induction calls as [|[other otherThis] calls IH]; intros registry Hregistry; [done|].
    simpl. apply IH. by apply Hkeep.
  - by apply IH.
Qed.

End RegistryFacts.

(** ** Evaluations *)

Lemma agreement_no_diagnostics_witness :
  Sample.validateTypeInfo "T"
    (InferredAndDeclared
       (Sample.inferredT [{| feature := "name"; anchor := 1 |}; {| feature := "items"; anchor := 2 |}])
       Sample.agreeingT)
  = [].
Proof.
  refine (proj1 (agreement_no_diagnostics Sample.extractAssignments Sample.distictAndSorted
                   Sample.propertyTypeArrayToString "T" _ _ [] [] _)).
  apply agree_interfaces.
  - split; [|split].
    + intros f [<-|[<-|[]]]; eexists.
      * split; [right; left; reflexivity | reflexivity].
      * split; [left; reflexivity | reflexivity].
    + intros e [<-|[<-|[]]]; eexists.
      * split; [right; left; reflexivity | reflexivity].
      * split; [left; reflexivity | reflexivity].
    + intros f e [<-|[<-|[]]] [<-|[<-|[]]] Hname; try discriminate Hname; split; reflexivity.
  - intros s. simpl. intuition.
Defined.

Lemma property_type_mismatch_diagnostic_witness :
  checkPropertyTypeAlternatives Sample.distictAndSorted Sample.propertyTypeArrayToString
    Sample.itemsPlainOptional Sample.itemsArrayRequired
    (applyErrorToAssignment Sample.extractAssignments
       [Sample.rule "T" [{| feature := "name"; anchor := 1 |};
                         {| feature := "items"; anchor := 2 |}]])
  = [assignmentDiagnostic
       ("The assigned type 'A | B' is not compatible with the declared property 'items' "
        +:+ "of type 'Array<A | B>'. 'A | B' has to be an array.")
       {| feature := "items"; anchor := 2 |}].
Proof.
  refine (proj2 (property_type_mismatch_diagnostic Sample.extractAssignments
                   Sample.distictAndSorted Sample.propertyTypeArrayToString
                   [Sample.rule "T" [{| feature := "name"; anchor := 1 |};
                                     {| feature := "items"; anchor := 2 |}]]
                   [Sample.itemsArrayRequired]
                   Sample.itemsPlainOptional Sample.itemsArrayRequired _ _)).
  - reflexivity.
  - vm_compute. discriminate.
Defined.

(** C5, as stated, fails: the type of [items] is inferred as a plain value and
    declared as an array, the two strings differ and the alternatives check
    yields a mismatch, but the producing rule has no assignment to [items] in
    its own body, and no diagnostic is emitted. *)
Lemma property_type_mismatch_without_assignment :
  List.find (fun e => String.eqb (name Sample.itemsPlainRequired) (name e))
            [Sample.itemsArrayRequired]
  = Some Sample.itemsArrayRequired
  /\ Sample.propertyTypeArrayToString (typeAlternatives Sample.itemsPlainRequired)
     <> Sample.propertyTypeArrayToString (typeAlternatives Sample.itemsArrayRequired)
  /\ checkAlternativesConsistencyHelper Sample.distictAndSorted
       (typeAlternatives Sample.itemsPlainRequired) (typeAlternatives Sample.itemsArrayRequired)
     = [{| errorMessage := "has to be an array"; typeString := "A | B" |}]
  /\ checkFoundProperty Sample.distictAndSorted Sample.propertyTypeArrayToString
       [Sample.itemsArrayRequired]
       (applyErrorToAssignment Sample.extractAssignments
          [Sample.rule "T" [{| feature := "name"; anchor := 1 |}]])
       Sample.itemsPlainRequired
     = [].
Proof.
  split; [reflexivity|]. split; [vm_compute; discriminate|]. split; reflexivity.
Qed.

(** C6, as stated, fails: neither side of [items] is the single array
    alternative, the declared property is required and the inferred one is
    optional, but the producing rule has no assignment to [items] in its own
    body, and no diagnostic is emitted. *)
Lemma optional_without_assignment :
  checkOptional Sample.itemsPlainOptional Sample.itemsPlainRequired = true
  /\ optional Sample.itemsPlainRequired = false
  /\ optional Sample.itemsPlainOptional = true
  /\ checkPropertyOptional Sample.itemsPlainOptional Sample.itemsPlainRequired
       (applyErrorToAssignment Sample.extractAssignments
          [Sample.rule "T" [{| feature := "name"; anchor := 1 |}]])
     = []
  /\ checkPropertiesConsistency Sample.distictAndSorted Sample.propertyTypeArrayToString
       [Sample.itemsPlainOptional] [Sample.itemsPlainRequired]
       (applyErrorToRuleNodes [Sample.rule "T" [{| feature := "name"; anchor := 1 |}]] "T")
       (applyErrorToAssignment Sample.extractAssignments
          [Sample.rule "T" [{| feature := "name"; anchor := 1 |}]])
     = [].
Proof. repeat split. Qed.

Lemma wrapValidationException_isolates_witness :
  accepted (wrapValidationException Sample.isOperationCancelled Sample.failingCheck tt tt 7 tt)
  = [{| severity := error;
        message := "An error occurred during validation: boom";
        diagnosticInfo := {| node := 7; property := None |} |}]
  /\ "boom" = "boom"
  /\ outcome (wrapValidationException Sample.isOperationCancelled Sample.failingCheck tt tt 7 tt)
     = Returned
  /\ logged (wrapValidationException Sample.isOperationCancelled Sample.failingCheck tt tt 7 tt)
     = [LogFailure (ErrorObject {| error_message := "boom"; stack := Some "at check" |});
        LogStack "at check"]
  /\ (forall e trace,
        ErrorObject {| error_message := "boom"; stack := Some "at check" |} = ErrorObject e ->
        stack e = Some trace -> trace <> "" ->
        [LogStack "at check"] = [LogStack trace]).
Proof.
  exact (proj1 (wrapValidationException_isolates nat unit unit Sample.getAllTypes
                  Sample.isSubtype Sample.isOperationCancelled Sample.failingCheck tt tt 7 tt)
           (ErrorObject {| error_message := "boom"; stack := Some "at check" |}) "boom"
           eq_refl eq_refl eq_refl).
Defined.

(** C8.  The wrapper does not isolate every failure: a check that throws an
    object without prototype is not turned into a diagnostic.  The failure is
    logged, the conversion [String(err)] in the handler raises a [TypeError],
    nothing is accepted and the wrapper raises this [TypeError] to its caller,
    although it is no cancellation signal. *)
Theorem wrapValidationException_unprintable_failure :
  Sample.isOperationCancelled (Unprintable Sample.conversionError) = false
  /\ Sample.isOperationCancelled Sample.conversionError = false
  /\ wrapValidationException Sample.isOperationCancelled Sample.unprintableCheck tt tt 7 tt
     = {| accepted := [];
          logged := [LogFailure (Unprintable Sample.conversionError)];
          outcome := Threw Sample.conversionError |}.
Proof. repeat split. Qed.

Lemma getChecks_includes_ancestor_checks_witness :
  In (wrapValidationException Sample.isOperationCancelled Sample.failingCheck tt)
     (getChecks "Entity"
        (registerAll Sample.getAllTypes Sample.isSubtype Sample.isOperationCancelled
           [([("Other", NoCheck)], tt); ([("Element", ManyChecks [Sample.failingCheck])], tt)] ∅)).
Proof.
  refine (proj1 (proj2 (proj2
            (getChecks_includes_ancestor_checks nat unit unit Sample.getAllTypes Sample.isSubtype
               Sample.isOperationCancelled [("Element", ManyChecks [Sample.failingCheck])] tt
               "Element" "Entity" (ManyChecks [Sample.failingCheck]) Sample.failingCheck
               _ _ _ _))) _ _).
  - by left.
  - by left.
  - right. by left.
  - reflexivity.
  - right. by left.
Defined.

(** * Further properties of the checker *)

(** ** [arrRefError] *)

(** X1.  [arrRefError] gives the empty message exactly when the two property
    types have the same array flag and the same reference flag. *)
Theorem arrRefError_empty_iff (found expected : PropertyType) :
  arrRefError found expected = ""
  <-> array found = array expected /\ reference found = reference expected.
Proof.
  destruct found as [ts a r], expected as [ts' a' r']. simpl.
  destruct a, r, a', r'; unfold arrRefError; simpl; split;
    solve [intros H; discriminate H | intros [H1 H2]; discriminate | done].
Qed.

(** X2.  Exchanging the found and the expected property type turns each
    message into the opposite one: "can't be" becomes "has to be" and back. *)
Theorem arrRefError_opposite (found expected : PropertyType) (c : ArrRefCase) :
  arrRefError found expected = arrRefMessage c
  <-> arrRefError expected found = arrRefMessage (oppositeCase c).
Proof.
  destruct found as [ts a r], expected as [ts' a' r'].
  destruct a, r, a', r', c; unfold arrRefError; simpl; split;
    solve [intros H; discriminate H | done].
Qed.

(** ** The alternatives check *)

Section HelperFacts.

Variable distictAndSorted : list string -> list string.

Lemma JsMap_set_length {V : Type} (m : list (string * V)) (k : string) (v : V) :
  List.length (JsMap.set k v m) <= S (List.length m).
Proof.
  induction m as [|[k0 v0] m IH]; simpl; [lia|].
  destruct (String.eqb k0 k); simpl; lia.
Qed.

Lemma stringToPropertyTypeList_length (l : list PropertyType) :
  List.length (stringToPropertyTypeList distictAndSorted l) <= List.length l.
Proof.
  unfold stringToPropertyTypeList.
  assert (H : forall acc : list (string * PropertyType),
            List.length
              (fold_left (fun acc e => JsMap.set (typeKey distictAndSorted e) e acc) l acc)
            <= List.length l + List.length acc).
  { induction l as [|a l IH]; intros acc; simpl; [lia|].
    specialize (IH (JsMap.set (typeKey distictAndSorted a) a acc)).
    pose proof (JsMap_set_length acc (typeKey distictAndSorted a) a). lia. }
  specialize (H []). simpl in H. lia.
Qed.

Lemma stringToPropertyTypeList_NoDup (l : list PropertyType) :
  List.NoDup (map fst (stringToPropertyTypeList distictAndSorted l)).
Proof.
  apply (JsMap_fold_NoDup (typeKey distictAndSorted) (fun e => e) l []). constructor.
Qed.

Lemma stringToPropertyTypeList_none (l : list PropertyType) (k : string) :
  JsMap.get k (stringToPropertyTypeList distictAndSorted l) = None
  <-> ~ exists e, In e l /\ typeKey distictAndSorted e = k.
Proof.
  split.
  - intros Hnone (e & He & <-).
    destruct (stringToPropertyTypeList_has distictAndSorted l e He) as [e' He']. congruence.
  - intros Hno. destruct (JsMap.get k _) as [e|] eqn:Hget; [|done].
    apply stringToPropertyTypeList_get in Hget as [He Hk]. exfalso. apply Hno. by exists e.
Qed.

(** What the loop body of the helper reports for one entry of the found map. *)
Lemma helper_entry (expected : list PropertyType) (k : string) (found : PropertyType)
    (err : ErrorInfo) :
  In err
     match JsMap.get k (stringToPropertyTypeList distictAndSorted expected) with
     | None => [{| typeString := k; errorMessage := "is not expected" |}]
     | Some expectedPropertyType =>
         if negb (Bool.eqb (array expectedPropertyType) (array found))
            || negb (Bool.eqb (reference expectedPropertyType) (reference found))
         then [{| typeString := k;
                  errorMessage := arrRefError found expectedPropertyType |}]
         else []
     end ->
  typeString err = k
  /\ ((errorMessage err = "is not expected"
       /\ JsMap.get k (stringToPropertyTypeList distictAndSorted expected) = None)
      \/ (exists e c,
            JsMap.get k (stringToPropertyTypeList distictAndSorted expected) = Some e
            /\ flagsDiffer found e
            /\ errorMessage err = arrRefMessage c)).
Proof.
  destruct (JsMap.get k _) as [e|] eqn:Hget.
  - destruct (negb _ || negb _) eqn:Hflags; [|done].
    intros [<-|[]]. split; [done|]. right.
    assert (Hdiff : flagsDiffer found e).
    { unfold flagsDiffer.
      destruct (array found), (array e), (reference found), (reference e);
        simpl in Hflags; try discriminate; auto. }
    destruct (flagsDiffer_firstArrRefCase _ _ Hdiff) as [c Hc].
    exists e, c. repeat split; [done|]. simpl.
    by rewrite arrRefError_firstArrRefCase, Hc.
  - intros [<-|[]]. split; [done|]. by left.
Qed.

(** A loop that reports at most one error per entry, under the key of the
    entry, over a map. *)
Lemma keyed_reports (body : string * PropertyType -> list ErrorInfo)
    (m : list (string * PropertyType)) :
  (forall k f,
     body (k, f) = []
     \/ exists msg, body (k, f) = [{| errorMessage := msg; typeString := k |}]) ->
  List.NoDup (map fst m) ->
  List.NoDup (map typeString (flat_map body m))
  /\ (forall x, In x (map typeString (flat_map body m)) -> In x (map fst m))
  /\ List.length (flat_map body m) <= List.length m.
Proof.
  intros Hbody. induction m as [|[k f] m IH]; intros Hnd; simpl.
  - split; [constructor|]. split; [done | lia].
  - apply List.NoDup_cons_iff in Hnd as [Hk Hnd].
    destruct (IH Hnd) as (IH1 & IH2 & IH3).
    destruct (Hbody k f) as [->|[msg ->]]; simpl.
    + split; [done|]. split; [intros x H; right; by apply IH2 | lia].
    + split; [apply List.NoDup_cons; [intros H; by apply Hk, IH2 | done]|].
      split; [intros x [<-|H]; [by left | right; by apply IH2] | lia].
Qed.

(** X3.  Every mismatch the alternatives check reports names the canonical
    string of a found alternative and carries a non-empty message; no string
    is reported twice; so there are at most as many reports as found
    alternatives, and an alternative that only the expected side has is never
    reported. *)
Theorem checkAlternativesConsistencyHelper_reports (found expected : list PropertyType) :
  List.NoDup (map typeString (checkAlternativesConsistencyHelper distictAndSorted found expected))
  /\ (forall err,
        In err (checkAlternativesConsistencyHelper distictAndSorted found expected) ->
        errorMessage err <> ""
        /\ exists f, In f found /\ typeKey distictAndSorted f = typeString err)
  /\ List.length (checkAlternativesConsistencyHelper distictAndSorted found expected)
     <= List.length found.
Proof.
  unfold checkAlternativesConsistencyHelper, JsMap.entries.
  pose proof (stringToPropertyTypeList_NoDup found) as Hnd.
  pose proof (stringToPropertyTypeList_length found) as Hlen.
  assert (Hin : forall k f,
            In (k, f) (stringToPropertyTypeList distictAndSorted found) ->
            In f found /\ typeKey distictAndSorted f = k)
    by (intros k f; apply stringToPropertyTypeList_in).
  revert Hnd Hlen Hin. generalize (stringToPropertyTypeList distictAndSorted found).
  intros m Hnd Hlen Hin.
  match goal with |- context [flat_map ?f _] => set (body := f) end.
  assert (Hbody : forall k f,
            body (k, f) = []
            \/ exists msg, body (k, f) = [{| errorMessage := msg; typeString := k |}]).
  { intros k f. unfold body.
    destruct (JsMap.get k _) as [e|]; [|right; by eexists].
    destruct (negb _ || negb _); [right; by eexists | by left]. }
  pose proof (keyed_reports body m Hbody Hnd) as Hall.
  destruct Hall as (H1 & H2 & H3). split; [exact H1|]. split; [|lia].
  intros err Herr. apply in_flat_map in Herr as ([k f] & Hentry & Herr).
  apply helper_entry in Herr as [Hk Hcases].
  split.
  - destruct Hcases as [[-> _]|(e & c & _ & _ & ->)]; [done | apply arrRefMessage_nonempty].
  - destruct (Hin k f Hentry) as [Hf Hkey]. exists f. by rewrite Hk.
Qed.

(** X4.  A type string is reported as "is not expected" exactly when it is the
    canonical string of a found alternative and of no expected alternative. *)
Theorem checkAlternativesConsistencyHelper_not_expected
    (found expected : list PropertyType) (k : string) :
  In {| errorMessage := "is not expected"; typeString := k |}
     (checkAlternativesConsistencyHelper distictAndSorted found expected)
  <-> (exists f, In f found /\ typeKey distictAndSorted f = k)
      /\ ~ exists e, In e expected /\ typeKey distictAndSorted e = k.
Proof.
  unfold checkAlternativesConsistencyHelper, JsMap.entries. rewrite in_flat_map. split.
  - intros ([k' f] & Hentry & Herr).
    apply helper_entry in Herr as [Hk Hcases]. simpl in Hk. subst k'.
    split.
    + apply stringToPropertyTypeList_in in Hentry as [Hf Hkey]. by exists f.
    + destruct Hcases as [[_ Hnone]|(e & c & _ & _ & Hmsg)].
      * by apply stringToPropertyTypeList_none.
      * simpl in Hmsg. by destruct c.
  - intros [(f & Hf & Hkey) Hno].
    destruct (stringToPropertyTypeList_has distictAndSorted found f Hf) as [f' Hget].
    rewrite Hkey in Hget. exists (k, f'). split; [by apply JsMap_get_in|].
    apply stringToPropertyTypeList_none in Hno. rewrite Hno. by left.
Qed.

(** X5.  With no found alternative nothing is reported, whatever is expected;
    with no expected alternative every found canonical string is reported
    once as "is not expected". *)
Theorem checkAlternativesConsistencyHelper_empty_side (alternatives : list PropertyType) :
  checkAlternativesConsistencyHelper distictAndSorted [] alternatives = []
  /\ checkAlternativesConsistencyHelper distictAndSorted alternatives []
     = map (fun entry : string * PropertyType =>
              {| errorMessage := "is not expected"; typeString := fst entry |})
           (stringToPropertyTypeList distictAndSorted alternatives).
Proof.
  split; [reflexivity|].
  unfold checkAlternativesConsistencyHelper, JsMap.entries.
  generalize (stringToPropertyTypeList distictAndSorted alternatives).
  intros m. induction m as [|[k f] m IH]; [done|]. cbn. f_equal. exact IH.
Qed.

End HelperFacts.

(** ** Supertypes, properties and assignments *)

(** X6.  The supertype check is silent exactly when the type has no producing
    rule or the inferred and the declared supertype names are the same. *)
Theorem checkSuperTypesConsistency_silent_iff
    (nodes : list ParserRule) (typeName : string) (inferred declared : list string) :
  checkSuperTypesConsistency inferred declared (applyErrorToRuleNodes nodes typeName) = []
  <-> nodes = [] \/ sameSuperTypes inferred declared.
Proof.
  split.
  - destruct nodes as [|rule nodes]; [by left|]. intros Hnil. right.
    unfold checkSuperTypesConsistency in Hnil. apply app_eq_nil in Hnil as [Hextra Hlack].
    assert (Hsub : forall l l',
              flat_map (fun s : string =>
                          applyErrorToRuleNodes (rule :: nodes) typeName
                            ("A super type '" +:+ s +:+ "' is " +:+ "not " +:+ "expected"))
                       (List.filter (fun e => negb (includes l' e)) l) = []
              \/ flat_map (fun s : string =>
                             applyErrorToRuleNodes (rule :: nodes) typeName
                               ("A super type '" +:+ s +:+ "' is " +:+ "" +:+ "expected"))
                          (List.filter (fun e => negb (includes l' e)) l) = [] ->
              forall s, In s l -> In s l').
    { intros l l' Hflat s Hs. apply includes_In.
      destruct (includes l' s) eqn:Hinc; [done|]. exfalso.
      assert (Hin : In s (List.filter (fun e => negb (includes l' e)) l))
        by (apply filter_In; by rewrite Hinc).
      destruct (List.filter _ l) as [|x xs]; [done|].
      destruct Hflat as [Hflat|Hflat]; simpl in Hflat; discriminate Hflat. }
    intros s. split; [apply (Hsub inferred declared) | apply (Hsub declared inferred)]; auto.
  - intros [->|Hsame]; [|by apply sameSuperTypes_no_error].
    unfold checkSuperTypesConsistency.
    by rewrite !flat_map_nil.
Qed.

Section PropertyReports.

Variable extractAssignments : AbstractElement -> list Assignment.
Variable distictAndSorted : list string -> list string.
Variable propertyTypeArrayToString : list PropertyType -> string.

(** X7.  An error reported for a property name is raised only if a producing
    rule has an assignment to that feature in its body, at most once, on the
    first such assignment in the order of the rules; it is raised, in
    particular, never for a type without a producing rule. *)
Theorem applyErrorToAssignment_target (nodes : list ParserRule) (propertyName msg : string) :
  List.length (applyErrorToAssignment extractAssignments nodes propertyName msg) <= 1
  /\ (forall d,
        In d (applyErrorToAssignment extractAssignments nodes propertyName msg) ->
        exists before assignment after,
          flat_map (fun rule => extractAssignments (alternatives rule)) nodes
          = before ++ assignment :: after
          /\ Forall (fun a => feature a <> propertyName) before
          /\ feature assignment = propertyName
          /\ d = assignmentDiagnostic msg assignment)
  /\ (applyErrorToAssignment extractAssignments nodes propertyName msg <> []
      <-> exists rule assignment,
            In rule nodes /\ In assignment (extractAssignments (alternatives rule))
            /\ feature assignment = propertyName).
Proof.
  unfold applyErrorToAssignment.
  set (l := flat_map (fun node => extractAssignments (alternatives node)) nodes).
  assert (Hall : forall (l : list Assignment) a,
            List.find (fun a => String.eqb (feature a) propertyName) l = Some a ->
            exists before after,
              l = before ++ a :: after
              /\ Forall (fun a => feature a <> propertyName) before
              /\ feature a = propertyName).
  { clear l. induction l as [|x l IH]; intros a; simpl; [done|].
    destruct (String.eqb (feature x) propertyName) eqn:E.
    - intros [= <-]. apply String.eqb_eq in E. exists [], l. repeat split; [constructor | done].
    - intros H. destruct (IH a H) as (before & after & -> & Hb & Ha).
      exists (x :: before), after. repeat split; [|done].
      constructor; [by apply String.eqb_neq | done]. }
  split; [|split].
  - destruct (List.find _ _); simpl; lia.
  - intros d. destruct (List.find _ _) as [a|] eqn:F; [|done].
    intros [<-|[]]. destruct (Hall _ _ F) as (before & after & H1 & H2 & H3).
    by exists before, a, after.
  - split.
    + intros Hne. destruct (List.find _ _) as [a|] eqn:F; [|done].
      apply find_some in F as [Hin E]. apply String.eqb_eq in E.
      apply in_flat_map in Hin as (rule & Hr & Ha). by exists rule, a.
    + intros (rule & a & Hr & Ha & Hf).
      destruct (List.find _ _) as [a'|] eqn:F; [done|]. exfalso.
      assert (Hin : In a l) by (apply in_flat_map; by exists rule).
      apply (find_none _ _ F) in Hin. apply String.eqb_neq in Hin. done.
Qed.

Lemma assignmentNodeFor_some (nodes : list ParserRule) (propertyName : string)
    (assignment : Assignment) :
  assignmentNodeFor extractAssignments nodes propertyName = Some assignment ->
  feature assignment = propertyName
  /\ exists rule, In rule nodes /\ In assignment (extractAssignments (alternatives rule)).
Proof.
  unfold assignmentNodeFor. intros F. apply find_some in F as [Hin E].
  apply String.eqb_eq in E. apply in_flat_map in Hin as (rule & Hr & Ha).
  split; [done | by exists rule].
Qed.

Lemma applyErrorToAssignment_in (nodes : list ParserRule) (propertyName msg : string)
    (diagnostic : Diagnostic GrammarNode) :
  In diagnostic (applyErrorToAssignment extractAssignments nodes propertyName msg) ->
  exists assignment,
    diagnostic = assignmentDiagnostic msg assignment
    /\ feature assignment = propertyName
    /\ exists rule, In rule nodes /\ In assignment (extractAssignments (alternatives rule)).
Proof.
  rewrite applyErrorToAssignment_assignmentNodeFor.
  destruct (assignmentNodeFor _ _ _) as [a|] eqn:F; [|done].
  intros [<-|[]]. exists a. split; [done|]. by apply assignmentNodeFor_some.
Qed.

Lemma applyErrorToRuleNodes_in (nodes : list ParserRule) (typeName msg : string)
    (diagnostic : Diagnostic GrammarNode) :
  In diagnostic (applyErrorToRuleNodes nodes typeName msg) ->
  exists rule, In rule nodes /\ diagnostic = ruleDiagnostic typeName msg rule.
Proof.
  rewrite applyErrorToRuleNodes_ruleDiagnostic. intros H.
  apply in_map_iff in H as (rule & <- & Hr). by exists rule.
Qed.

Lemma checkFoundProperty_in (nodes : list ParserRule) (declared : list Property)
    (foundProperty : Property) (diagnostic : Diagnostic GrammarNode) :
  In diagnostic
     (checkFoundProperty distictAndSorted propertyTypeArrayToString declared
        (applyErrorToAssignment extractAssignments nodes) foundProperty) ->
  exists msg assignment,
    diagnostic = assignmentDiagnostic msg assignment
    /\ feature assignment = name foundProperty
    /\ exists rule, In rule nodes /\ In assignment (extractAssignments (alternatives rule)).
Proof.
  unfold checkFoundProperty, checkPropertyTypeAlternatives, checkPropertyOptional.
  destruct (List.find _ declared) as [e|].
  - rewrite in_app_iff. intros [H|H].
    + destruct (negb _); [|done]. destruct (Nat.ltb _ _); [|done].
      apply applyErrorToAssignment_in in H as (a & ? & ? & ?). by eexists _, a.
    + destruct (_ && _); [|done].
      apply applyErrorToAssignment_in in H as (a & ? & ? & ?). by eexists _, a.
  - intros H. apply applyErrorToAssignment_in in H as (a & ? & ? & ?). by eexists _, a.
Qed.

(** X8.  A declared property that no inferred property matches by name is
    reported as expected on every producing rule; an inferred property that no
    declared property matches is reported as not expected on its assignment
    node; and when every declared property is matched, all the diagnostics of
    the properties check sit on assignments to inferred properties. *)
Theorem checkPropertiesConsistency_names (nodes : list ParserRule) (typeName : string)
    (inferred declared : list Property) :
  (forall q rule,
     In q declared -> (~ exists f, In f inferred /\ name f = name q) -> In rule nodes ->
     In (ruleDiagnostic typeName ("A property '" +:+ name q +:+ "' is expected") rule)
        (checkPropertiesConsistency distictAndSorted propertyTypeArrayToString
           inferred declared (applyErrorToRuleNodes nodes typeName)
           (applyErrorToAssignment extractAssignments nodes)))
  /\ (forall f assignment,
        In f inferred -> (~ exists e, In e declared /\ name e = name f) ->
        assignmentNodeFor extractAssignments nodes (name f) = Some assignment ->
        In (assignmentDiagnostic ("A property '" +:+ name f +:+ "' is not expected.") assignment)
           (checkPropertiesConsistency distictAndSorted propertyTypeArrayToString
              inferred declared (applyErrorToRuleNodes nodes typeName)
              (applyErrorToAssignment extractAssignments nodes)))
  /\ ((forall q, In q declared -> exists f, In f inferred /\ name f = name q) ->
      forall diagnostic,
        In diagnostic
           (checkPropertiesConsistency distictAndSorted propertyTypeArrayToString
              inferred declared (applyErrorToRuleNodes nodes typeName)
              (applyErrorToAssignment extractAssignments nodes)) ->
        exists msg assignment f,
          diagnostic = assignmentDiagnostic msg assignment
          /\ In f inferred /\ feature assignment = name f).
Proof.
  unfold checkPropertiesConsistency. split; [|split].
  - intros q rule Hq Hno Hrule. apply in_app_iff. right.
    apply in_flat_map. exists q. split; [done|]. unfold checkLackingProperty.
    apply find_name_none in Hno. rewrite Hno.
    rewrite applyErrorToRuleNodes_ruleDiagnostic. by apply in_map.
  - intros f a Hf Hno Ha. apply in_app_iff. left.
    apply in_flat_map. exists f. split; [done|]. unfold checkFoundProperty.
    apply find_name_none in Hno. rewrite Hno.
    rewrite applyErrorToAssignment_assignmentNodeFor, Ha. by left.
  - intros Hall diagnostic Hin. apply in_app_iff in Hin as [Hin|Hin].
    + apply in_flat_map in Hin as (f & Hf & Hin).
      apply checkFoundProperty_in in Hin as (msg & a & -> & Hfeature & _).
      by exists msg, a, f.
    + apply in_flat_map in Hin as (q & Hq & Hin). unfold checkLackingProperty in Hin.
      destruct (List.find _ inferred) eqn:F; [done|].
      apply find_name_none in F. exfalso. apply F. by apply Hall.
Qed.

(** Where the diagnostics for one name sit. *)
Lemma validateTypeInfo_in (typeName : string) (i : InferredInfo) (d : DeclaredInfo)
    (diagnostic : Diagnostic GrammarNode) :
  In diagnostic
     (validateTypeInfo extractAssignments distictAndSorted propertyTypeArrayToString
        typeName (InferredAndDeclared i d)) ->
  severity diagnostic = error
  /\ ((exists rule,
         In rule (nodes i)
         /\ diagnosticInfo diagnostic = {| node := ruleAnchor rule; property := Some "name" |})
      \/ diagnosticInfo diagnostic = {| node := declNode (decl d); property := Some "name" |}
      \/ (exists rule assignment,
            In rule (nodes i) /\ In assignment (extractAssignments (alternatives rule))
            /\ diagnosticInfo diagnostic
               = {| node := NodeAssignment assignment; property := Some "feature" |})).
Proof.
  assert (Hrule : forall msg,
            In diagnostic (applyErrorToRuleNodes (nodes i) typeName msg) ->
            severity diagnostic = error
            /\ ((exists rule,
                   In rule (nodes i)
                   /\ diagnosticInfo diagnostic
                      = {| node := ruleAnchor rule; property := Some "name" |})
                \/ diagnosticInfo diagnostic
                   = {| node := declNode (decl d); property := Some "name" |}
                \/ (exists rule assignment,
                      In rule (nodes i) /\ In assignment (extractAssignments (alternatives rule))
                      /\ diagnosticInfo diagnostic
                         = {| node := NodeAssignment assignment;
                              property := Some "feature" |}))).
  { intros msg H. apply applyErrorToRuleNodes_in in H as (rule & Hr & ->).
    split; [done|]. left. by exists rule. }
  unfold validateTypeInfo.
  destruct (inferred i) as [iu|ii], (declared d) as [du|di].
  - unfold checkAlternativesConsistency. intros H.
    apply in_flat_map in H as (err & _ & H). by eapply Hrule.
  - intros H. apply in_app_iff in H as [H|[<-|[]]].
    + apply in_map_iff in H as (rule & <- & Hr). split; [done|]. left. by exists rule.
    + split; [done|]. right. by left.
  - intros H. apply in_app_iff in H as [H|[<-|[]]].
    + apply in_map_iff in H as (rule & <- & Hr). split; [done|]. left. by exists rule.
    + split; [done|]. right. by left.
  - intros H. apply in_app_iff in H as [H|H].
    + unfold checkPropertiesConsistency in H. apply in_app_iff in H as [H|H].
      * apply in_flat_map in H as (f & _ & H).
        apply checkFoundProperty_in in H as (msg & a & -> & _ & rule & Hr & Ha).
        split; [done|]. right. right. by exists rule, a.
      * apply in_flat_map in H as (q & _ & H). unfold checkLackingProperty in H.
        destruct (List.find _ _); [done|]. by eapply Hrule.
    + unfold checkSuperTypesConsistency in H. apply in_app_iff in H as [H|H];
        apply in_flat_map in H as (s & _ & H); by eapply Hrule.
Qed.

End PropertyReports.

(** ** The merged map and the whole pass *)

Lemma MultiMap_get_empty {V : Type} (k : string) :
  MultiMap.get k (∅ : gmap string (list V)) = [].
Proof. unfold MultiMap.get. by rewrite lookup_empty. Qed.

Lemma MultiMap_fold_add {V : Type} (key : V -> string) (l : list V)
    (m : gmap string (list V)) (k : string) :
  MultiMap.get k (fold_left (fun acc v => MultiMap.add (key v) v acc) l m)
  = MultiMap.get k m ++ List.filter (fun v => String.eqb (key v) k) l.
Proof.
  revert m. induction l as [|v l IH]; intros m; simpl; [by rewrite app_nil_r|].
  rewrite IH. destruct (String.eqb (key v) k) eqn:E.
  - apply String.eqb_eq in E. subst k. by rewrite MultiMap_get_add_eq, <- app_assoc.
  - apply String.eqb_neq in E. by rewrite MultiMap_get_add_ne.
Qed.

Lemma JsMap_foldSome_NoDup {A V : Type} (key : A -> string) (val : A -> option V)
    (l : list A) (acc : list (string * V)) :
  List.NoDup (map fst acc) ->
  List.NoDup (map fst (fold_left (JsMap.setSome key val) l acc)).
Proof.
  revert acc. induction l as [|a l IH]; intros acc Hnd; simpl; [done|].
  apply IH. unfold JsMap.setSome. destruct (val a); [by apply JsMap_set_NoDup | done].
Qed.

Lemma findDeclNode_some (astResources : AstResources) (typeName : string) (d : DeclNode) :
  findDeclNode astResources typeName = Some d ->
  declNode_name d = typeName
  /\ match d with
     | DeclType t => In t (typeDecls astResources)
     | DeclInterface i =>
         In i (interfaceDecls astResources)
         /\ forall t, In t (typeDecls astResources) -> type_name t <> typeName
     end.
Proof.
  unfold findDeclNode.
  destruct (List.find _ (typeDecls astResources)) as [t|] eqn:Ft.
  - intros [= <-]. apply find_some in Ft as [Hin E]. apply String.eqb_eq in E. by split.
  - destruct (List.find _ (interfaceDecls astResources)) as [i|] eqn:Fi; [|done].
    intros [= <-]. apply find_some in Fi as [Hin E]. apply String.eqb_eq in E.
    split; [done|]. split; [done|].
    intros t Ht. apply (find_none _ _ Ft) in Ht. by apply String.eqb_neq.
Qed.

Section MergedMap.

Variable getRuleType : ParserRule -> string.
Variable extractAssignments : AbstractElement -> list Assignment.
Variable distictAndSorted : list string -> list string.
Variable propertyTypeArrayToString : list PropertyType -> string.
Variable Grammar : Type.
Variable collectAllAstResources : list Grammar -> AstResources.
Variable collectInferredTypes : list ParserRule -> list ParserRule -> AstTypes.
Variable collectDeclaredTypes : list InterfaceDecl -> list TypeDecl -> AstTypes -> AstTypes.

Local Abbreviation resourcesOf grammar := (collectAllAstResources [grammar]).
Local Abbreviation inferredOf grammar :=
  (collectInferredTypes (parserRules (resourcesOf grammar)) (datatypeRules (resourcesOf grammar))).
Local Abbreviation declaredOf grammar :=
  (collectDeclaredTypes (interfaceDecls (resourcesOf grammar)) (typeDecls (resourcesOf grammar))
     (inferredOf grammar)).
Local Abbreviation validationResources grammar :=
  (collectValidationResources getRuleType Grammar collectAllAstResources
     collectInferredTypes collectDeclaredTypes grammar).

(** X9.  The rules recorded for a type name are exactly the parser rules and
    then the datatype rules of the grammar that return this name, in their
    order; a name that no rule returns has the empty list. *)
Theorem getTypeNameToRules_get (astResources : AstResources) (typeName : string) :
  MultiMap.get typeName (getTypeNameToRules getRuleType astResources)
  = List.filter (fun rule => String.eqb (getRuleType rule) typeName)
      (parserRules astResources ++ datatypeRules astResources)
  /\ ((forall rule, In rule (parserRules astResources ++ datatypeRules astResources) ->
         getRuleType rule <> typeName) ->
      MultiMap.get typeName (getTypeNameToRules getRuleType astResources) = []).
Proof.
  assert (Hget : MultiMap.get typeName (getTypeNameToRules getRuleType astResources)
                 = List.filter (fun rule => String.eqb (getRuleType rule) typeName)
                     (parserRules astResources ++ datatypeRules astResources)).
  { unfold getTypeNameToRules. by rewrite MultiMap_fold_add, MultiMap_get_empty. }
  split; [exact Hget|]. intros Hno. rewrite Hget. apply filter_nil.
  intros rule Hr. by apply String.eqb_neq, Hno.
Qed.

Lemma collectValidationResources_setSome (grammar : Grammar) :
  validationResources grammar
  = fold_left
      (JsMap.setSome typeName_of
         (declaredEntry getRuleType (resourcesOf grammar) (inferredOf grammar)))
      (mergeTypesAndInterfaces (declaredOf grammar)) [].
Proof.
  unfold collectValidationResources. apply fold_left_ext. intros acc type.
  unfold JsMap.setSome, declaredEntry, inferredInfoMap. by destruct (findDeclNode _ _).
Qed.

Lemma inferredInfoMap_get (astResources : AstResources) (inferredTypes : AstTypes)
    (typeName : string) (i : InferredInfo) :
  JsMap.get typeName (inferredInfoMap getRuleType astResources inferredTypes) = Some i ->
  In (inferred i) (mergeTypesAndInterfaces inferredTypes)
  /\ typeName_of (inferred i) = typeName
  /\ nodes i = rulesReturning getRuleType astResources typeName.
Proof.
  intros H. unfold inferredInfoMap in H.
  apply (JsMap_fold_get typeName_of
           (fun type => {| inferred := type;
                           nodes := MultiMap.get (typeName_of type)
                                      (getTypeNameToRules getRuleType astResources) |}))
    in H as [(e & He & <- & <-)|H]; [|done].
  simpl. repeat split; [done|].
  unfold getTypeNameToRules, rulesReturning. by rewrite MultiMap_fold_add, MultiMap_get_empty.
Qed.

Lemma inferredInfoMap_none (astResources : AstResources) (inferredTypes : AstTypes)
    (typeName : string) :
  JsMap.get typeName (inferredInfoMap getRuleType astResources inferredTypes) = None ->
  ~ In typeName (map typeName_of (mergeTypesAndInterfaces inferredTypes)).
Proof.
  intros Hnone Hin. apply in_map_iff in Hin as (e & <- & He).
  destruct (JsMap_fold_get_elem typeName_of
              (fun type => {| inferred := type;
                              nodes := MultiMap.get (typeName_of type)
                                         (getTypeNameToRules getRuleType astResources) |})
              _ [] e He) as [v Hv].
  unfold inferredInfoMap in Hnone. congruence.
Qed.

Lemma validationResources_entry (grammar : Grammar) (typeName : string) (typeInfo : TypeInfo) :
  In (typeName, typeInfo) (validationResources grammar) ->
  exists type,
    In type (mergeTypesAndInterfaces (declaredOf grammar))
    /\ typeName_of type = typeName
    /\ declaredEntry getRuleType (resourcesOf grammar) (inferredOf grammar) type = Some typeInfo.
Proof.
  rewrite collectValidationResources_setSome. intros Hin.
  apply JsMap_in_get_NoDup in Hin; [|apply JsMap_foldSome_NoDup; constructor].
  by apply JsMap_foldSome_get in Hin as [?|?].
Qed.

(** X10.  The merged map has one entry per name.  An entry belongs to a
    declared type of that name and carries the declaration node of that name:
    a type declaration of the grammar if there is one of that name, and an
    interface declaration of the grammar only when there is no such type
    declaration;
    when it also carries an inferred description, this is an inferred type of
    that name together with exactly the rules of the grammar that return the
    name. *)
Theorem collectValidationResources_invariant (grammar : Grammar) :
  List.NoDup (map fst (validationResources grammar))
  /\ forall typeName typeInfo,
       In (typeName, typeInfo) (validationResources grammar) ->
       match typeInfo with
       | OnlyInferred _ => False
       | OnlyDeclared d =>
           In (declared d) (mergeTypesAndInterfaces (declaredOf grammar))
           /\ typeName_of (declared d) = typeName
           /\ findDeclNode (resourcesOf grammar) typeName = Some (decl d)
           /\ declNode_name (decl d) = typeName
           /\ match decl d with
              | DeclType t => In t (typeDecls (resourcesOf grammar))
              | DeclInterface i =>
                  In i (interfaceDecls (resourcesOf grammar))
                  /\ forall t, In t (typeDecls (resourcesOf grammar)) -> type_name t <> typeName
              end
       | InferredAndDeclared i d =>
           In (declared d) (mergeTypesAndInterfaces (declaredOf grammar))
           /\ typeName_of (declared d) = typeName
           /\ findDeclNode (resourcesOf grammar) typeName = Some (decl d)
           /\ declNode_name (decl d) = typeName
           /\ In (inferred i) (mergeTypesAndInterfaces (inferredOf grammar))
           /\ typeName_of (inferred i) = typeName
           /\ nodes i = rulesReturning getRuleType (resourcesOf grammar) typeName
           /\ match decl d with
              | DeclType t => In t (typeDecls (resourcesOf grammar))
              | DeclInterface i =>
                  In i (interfaceDecls (resourcesOf grammar))
                  /\ forall t, In t (typeDecls (resourcesOf grammar)) -> type_name t <> typeName
              end
       end.
Proof.
  split.
  - rewrite collectValidationResources_setSome. apply JsMap_foldSome_NoDup. constructor.
  - intros typeName typeInfo Hin.
    apply validationResources_entry in Hin as (type & Htype & <- & Hentry).
    unfold declaredEntry in Hentry.
    destruct (findDeclNode _ _) as [node|] eqn:Hnode; [|done].
    injection Hentry as <-.
    pose proof (findDeclNode_some _ _ _ Hnode) as [Hname Hprefer].
    destruct (JsMap.get _ _) as [i|] eqn:Hi; simpl.
    + apply inferredInfoMap_get in Hi as (H1 & H2 & H3). by repeat split.
    + by repeat split.
Qed.

Lemma validationResources_both (grammar : Grammar) (typeName : string)
    (i : InferredInfo) (d : DeclaredInfo) :
  In (typeName, InferredAndDeclared i d) (validationResources grammar) ->
  nodes i = rulesReturning getRuleType (resourcesOf grammar) typeName
  /\ findDeclNode (resourcesOf grammar) typeName = Some (decl d)
  /\ In typeName (inferredNames Grammar collectAllAstResources collectInferredTypes grammar)
  /\ In typeName
       (declaredNames Grammar collectAllAstResources collectInferredTypes collectDeclaredTypes
          grammar).
Proof.
  intros Hin. apply validationResources_entry in Hin as (type & Htype & <- & Hentry).
  unfold declaredEntry in Hentry.
  destruct (findDeclNode _ _) as [node|] eqn:Hnode; [|done].
  destruct (JsMap.get _ _) as [i'|] eqn:Hi; [|done].
  injection Hentry as <- <-. apply inferredInfoMap_get in Hi as (H1 & H2 & H3).
  repeat split; [done| |by apply in_map].
  unfold inferredNames. rewrite <- H2. by apply in_map.
Qed.

(** X11.  When no type name is both inferred and declared, the pass emits no
    diagnostic. *)
Theorem validateTypesConsistency_one_sided (grammar : Grammar) :
  (forall typeName,
     In typeName (inferredNames Grammar collectAllAstResources collectInferredTypes grammar) ->
     ~ In typeName
         (declaredNames Grammar collectAllAstResources collectInferredTypes
            collectDeclaredTypes grammar)) ->
  validateTypesConsistency getRuleType extractAssignments distictAndSorted
    propertyTypeArrayToString Grammar collectAllAstResources collectInferredTypes
    collectDeclaredTypes grammar = [].
Proof.
  intros Hdisjoint. unfold validateTypesConsistency, validateResources, JsMap.entries.
  apply flat_map_nil. intros [typeName typeInfo] Hin. simpl.
  destruct typeInfo as [i|d|i d]; [done..|].
  apply validationResources_both in Hin as (_ & _ & Hi & Hd).
  exfalso. by apply (Hdisjoint typeName).
Qed.

(** X12.  Every diagnostic of the pass is an error that sits inside the
    grammar under validation: on the name of one of its rules (on the
    inferred-type annotation when the rule has one), on the name of one of its
    type or interface declarations, or on the feature of an assignment in the
    body of one of its rules. *)
Theorem validateTypesConsistency_anchored (grammar : Grammar)
    (diagnostic : Diagnostic GrammarNode) :
  In diagnostic
     (validateTypesConsistency getRuleType extractAssignments distictAndSorted
        propertyTypeArrayToString Grammar collectAllAstResources collectInferredTypes
        collectDeclaredTypes grammar) ->
  anchoredInGrammar extractAssignments (collectAllAstResources [grammar]) diagnostic.
Proof.
  unfold validateTypesConsistency, validateResources, JsMap.entries. intros Hin.
  apply in_flat_map in Hin as ([typeName typeInfo] & Hentry & Hin). simpl in Hin.
  destruct typeInfo as [i|d|i d]; [done..|].
  apply validationResources_both in Hentry as (Hnodes & Hdecl & _ & _).
  apply validateTypeInfo_in in Hin as [Hsev Hcases]. split; [done|].
  assert (Hrules : forall rule,
            In rule (nodes i) ->
            In rule (parserRules (resourcesOf grammar) ++ datatypeRules (resourcesOf grammar))).
  { intros rule Hr. rewrite Hnodes in Hr. unfold rulesReturning in Hr.
    by apply filter_In in Hr as [Hr _]. }
  destruct Hcases as [(rule & Hr & Hinfo)|[Hinfo|(rule & a & Hr & Ha & Hinfo)]].
  - left. exists rule. split; [by apply Hrules | done].
  - apply findDeclNode_some in Hdecl as [_ Hd]. rewrite Hinfo.
    destruct (decl d) as [t|idecl]; simpl.
    + right. left. by exists t.
    + right. right. left. exists idecl. by destruct Hd.
  - right. right. right. exists rule, a. split; [by apply Hrules | done].
Qed.

End MergedMap.

(** ** All interfaces *)

Section AllInterfacesFacts.

Variable getRuleType : ParserRule -> string.
Variable Grammar : Type.
Variable collectAllAstResources : list Grammar -> AstResources.
Variable collectInferredTypes : list ParserRule -> list ParserRule -> AstTypes.
Variable collectDeclaredTypes : list InterfaceDecl -> list TypeDecl -> AstTypes -> AstTypes.

Lemma JsMap_has_false {V : Type} (m : list (string * V)) (k : string) :
  JsMap.has k m = false <-> JsMap.get k m = None.
Proof. unfold JsMap.has. by destruct (JsMap.get k m). Qed.

Lemma addDeclaredInterface_keeps (astResources : AstResources)
    (acc : list (string * InterfaceInfo)) (type : InterfaceType) (k : string)
    (v : InterfaceInfo) :
  JsMap.get k acc = Some v ->
  JsMap.get k (addDeclaredInterface astResources acc type) = Some v.
Proof.
  intros Hget. unfold addDeclaredInterface.
  destruct (JsMap.has (interface_name type) acc) eqn:Hhas; [done|]. simpl.
  destruct (List.find _ _); [|done].
  apply JsMap_has_false in Hhas. rewrite JsMap_get_set_ne; [done|]. congruence.
Qed.

Lemma addDeclaredInterface_other (astResources : AstResources)
    (acc : list (string * InterfaceInfo)) (type : InterfaceType) (k : string) :
  interface_name type <> k ->
  JsMap.get k (addDeclaredInterface astResources acc type) = JsMap.get k acc.
Proof.
  intros Hne. unfold addDeclaredInterface.
  destruct (negb _); [|done]. destruct (List.find _ _); [|done].
  by apply JsMap_get_set_ne.
Qed.

Lemma addDeclaredInterfaces_keep (astResources : AstResources) (l : list InterfaceType)
    (acc : list (string * InterfaceInfo)) (k : string) (v : InterfaceInfo) :
  JsMap.get k acc = Some v ->
  JsMap.get k (fold_left (addDeclaredInterface astResources) l acc) = Some v.
Proof.
  revert acc. induction l as [|t l IH]; intros acc Hget; simpl; [done|].
  by apply IH, addDeclaredInterface_keeps.
Qed.

Lemma addDeclaredInterfaces_origin (astResources : AstResources) (l : list InterfaceType)
    (acc : list (string * InterfaceInfo)) (k : string) (v : InterfaceInfo) :
  JsMap.get k (fold_left (addDeclaredInterface astResources) l acc) = Some v ->
  JsMap.get k acc = Some v
  \/ (JsMap.get k acc = None
      /\ exists type declaration,
           In type l /\ interface_name type = k
           /\ In declaration (interfaceDecls astResources)
           /\ interfaceDecl_name declaration = k
           /\ v = {| interfaceInfo_type := type; interfaceInfo_node := DeclaredBy declaration |}).
Proof.
  revert acc. induction l as [|t l IH]; intros acc; simpl; [by left|].
  intros H. destruct (IH _ H) as [Hstep|(Hnone & type & decl & Ht & Hk & Hd & Hdk & ->)].
  - destruct (JsMap.get k acc) as [v'|] eqn:Hacc.
    + left. rewrite (addDeclaredInterface_keeps _ _ t _ _ Hacc) in Hstep. done.
    + right. split; [done|].
      destruct (string_dec (interface_name t) k) as [E|Hne].
      * unfold addDeclaredInterface in Hstep.
        destruct (JsMap.has (interface_name t) acc); simpl in Hstep; [congruence|].
        destruct (List.find _ _) as [decl|] eqn:F; [|congruence].
        rewrite E, JsMap_get_set_eq in Hstep. injection Hstep as <-.
        apply find_some in F as [Hd Hdk]. apply String.eqb_eq in Hdk.
        exists t, decl. repeat split; auto. congruence.
      * rewrite addDeclaredInterface_other in Hstep by done. congruence.
  - right. destruct (JsMap.get k acc) as [v'|] eqn:Hacc.
    + rewrite (addDeclaredInterface_keeps _ _ t _ _ Hacc) in Hnone. done.
    + split; [done|]. exists type, decl. repeat split; auto.
Qed.

Lemma addDeclaredInterfaces_added (astResources : AstResources) (l : list InterfaceType)
    (acc : list (string * InterfaceInfo)) (type : InterfaceType) (declaration : InterfaceDecl) :
  In type l ->
  In declaration (interfaceDecls astResources) ->
  interfaceDecl_name declaration = interface_name type ->
  exists v,
    JsMap.get (interface_name type) (fold_left (addDeclaredInterface astResources) l acc)
    = Some v.
Proof.
  intros Hin Hd Hdk. revert acc. induction l as [|t l IH]; intros acc; simpl; [done|].
  destruct (JsMap.get (interface_name type) (addDeclaredInterface astResources acc t))
    as [v|] eqn:Hstep.
  { exists v. by apply addDeclaredInterfaces_keep. }
  destruct Hin as [->|Hin]; [|by apply IH].
  exfalso. unfold addDeclaredInterface in Hstep.
  destruct (JsMap.has (interface_name type) acc) eqn:Hhas; simpl in Hstep.
  - unfold JsMap.has in Hhas. rewrite Hstep in Hhas. done.
  - destruct (List.find _ _) as [decl|] eqn:F.
    + rewrite JsMap_get_set_eq in Hstep. done.
    + apply (find_none _ _ F) in Hd. rewrite Hdk, String.eqb_refl in Hd. done.
Qed.

(** X13.  In the map of all interfaces an inferred interface always wins:
    every inferred interface name has the entry of an inferred interface with
    the rules that return the name, whatever is declared.  A name that is not
    inferred has an entry exactly when an interface of that name is declared
    and declared by an interface node of the grammar, and the entry then
    carries such a declared interface and such a node. *)
Theorem collectAllInterfaces_entries (grammar : Grammar) (typeName : string) :
  let astResources := collectAllAstResources [grammar] in
  let inferred :=
    collectInferredTypes (parserRules astResources) (datatypeRules astResources) in
  let declared :=
    collectDeclaredTypes (interfaceDecls astResources) (typeDecls astResources) inferred in
  let all :=
    collectAllInterfaces getRuleType Grammar collectAllAstResources collectInferredTypes
      collectDeclaredTypes grammar in
  (In typeName (map interface_name (interfaces inferred)) ->
   exists type,
     JsMap.get typeName all
     = Some {| interfaceInfo_type := type;
               interfaceInfo_node :=
                 ProducedBy (rulesReturning getRuleType astResources typeName) |}
     /\ In type (interfaces inferred) /\ interface_name type = typeName)
  /\ (~ In typeName (map interface_name (interfaces inferred)) ->
      forall info,
        JsMap.get typeName all = Some info ->
        exists declaration,
          interfaceInfo_node info = DeclaredBy declaration
          /\ In declaration (interfaceDecls astResources)
          /\ interfaceDecl_name declaration = typeName
          /\ In (interfaceInfo_type info) (interfaces declared)
          /\ interface_name (interfaceInfo_type info) = typeName)
  /\ (~ In typeName (map interface_name (interfaces inferred)) ->
      ((exists info, JsMap.get typeName all = Some info)
       <-> In typeName (map interface_name (interfaces declared))
           /\ exists declaration,
                In declaration (interfaceDecls astResources)
                /\ interfaceDecl_name declaration = typeName)).
Proof.
  intros astResources inferred declared all.
  set (val := fun type : InterfaceType =>
         {| interfaceInfo_type := type;
            interfaceInfo_node :=
              ProducedBy (MultiMap.get (interface_name type)
                            (getTypeNameToRules getRuleType astResources)) |}).
  set (inferredInterfaces :=
         fold_left (fun acc type => JsMap.set (interface_name type) (val type) acc)
                   (interfaces inferred) []).
  assert (Hall : all = fold_left (addDeclaredInterface astResources) (interfaces declared)
                         inferredInterfaces) by reflexivity.
  assert (Hnone : ~ In typeName (map interface_name (interfaces inferred)) ->
                  JsMap.get typeName inferredInterfaces = None).
  { intros Hno. destruct (JsMap.get typeName inferredInterfaces) as [v|] eqn:Hget; [|done].
    apply (JsMap_fold_get interface_name val) in Hget as [(e & He & <- & _)|Hget]; [|done].
    exfalso. apply Hno. by apply in_map. }
  split; [|split].
  - intros Hin. apply in_map_iff in Hin as (e & <- & He).
    destruct (JsMap_fold_get_elem interface_name val (interfaces inferred) [] e He) as [v Hv].
    fold inferredInterfaces in Hv.
    pose proof Hv as Hv'.
    apply (JsMap_fold_get interface_name val) in Hv' as [(type & Ht & Hk & <-)|Hv']; [|done].
    exists type. split; [|by split].
    rewrite Hall, (addDeclaredInterfaces_keep _ _ _ _ _ Hv). unfold val. rewrite Hk.
    unfold getTypeNameToRules, rulesReturning.
    by rewrite MultiMap_fold_add, MultiMap_get_empty.
  - intros Hno info Hget. rewrite Hall in Hget.
    apply addDeclaredInterfaces_origin in Hget
      as [Hget|(_ & type & decl & Ht & Hk & Hd & Hdk & ->)].
    + rewrite (Hnone Hno) in Hget. done.
    + exists decl. by repeat split.
  - intros Hno. split.
    + intros [info Hget]. rewrite Hall in Hget.
      apply addDeclaredInterfaces_origin in Hget
        as [Hget|(_ & type & decl & Ht & Hk & Hd & Hdk & ->)].
      * rewrite (Hnone Hno) in Hget. done.
      * split; [rewrite <- Hk; by apply in_map | by exists decl].
    + intros [Hin (decl & Hd & Hdk)]. apply in_map_iff in Hin as (type & <- & Ht).
      rewrite Hall. by eapply addDeclaredInterfaces_added.
Qed.

End AllInterfacesFacts.

(** * Further properties of the registry *)

Section RegistryContent.

Variable Node : Type.
Variable This : Type.
Variable CancellationToken : Type.
Variable getAllTypes : list string.
Variable isSubtype : string -> string -> bool.
Variable isOperationCancelled : Thrown -> bool.

Implicit Types (check : ValidationCheck Node This CancellationToken)
  (validationChecks : gmap string (list (ValidationCheck Node This CancellationToken))).

Lemma doRegister_fold_get (types : list string) (type : string) check validationChecks
    (T : string) :
  MultiMap.get T
    (fold_left
       (fun acc subtype =>
          if isSubtype subtype type then MultiMap.add subtype check acc else acc)
       types validationChecks)
  = MultiMap.get T validationChecks
    ++ repeat check (if isSubtype T type then count_occ string_dec types T else 0).
Proof.
  revert validationChecks. induction types as [|t types IH]; intros validationChecks.
  - simpl. destruct (isSubtype T type); by rewrite app_nil_r.
  - cbn [fold_left]. rewrite IH. cbn [count_occ].
    destruct (string_dec t T) as [->|Hne].
    + destruct (isSubtype T type); [|done].
      by rewrite MultiMap_get_add_eq, <- app_assoc.
    + destruct (isSubtype t type); [|done]. by rewrite MultiMap_get_add_ne.
Qed.

Lemma getChecks_doRegister_content (type : string) check validationChecks (T : string) :
  getChecks T (doRegister getAllTypes isSubtype type check validationChecks)
  = getChecks T validationChecks ++ repeat check (if isSubtype T type then count_occ string_dec getAllTypes T else 0).
Proof. apply doRegister_fold_get. Qed.

Lemma getChecks_register_many_content (type : string) (thisObj : This)
    (checks : list (ValidationCheck Node This CancellationToken)) validationChecks (T : string) :
  getChecks T
    (fold_left
       (fun acc check =>
          doRegister getAllTypes isSubtype type
            (wrapValidationException isOperationCancelled check thisObj) acc)
       checks validationChecks)
  = getChecks T validationChecks
    ++ flat_map
         (fun check =>
            repeat (wrapValidationException isOperationCancelled check thisObj) (if isSubtype T type then count_occ string_dec getAllTypes T else 0))
         checks.
Proof.
  revert validationChecks. induction checks as [|check checks IH]; intros validationChecks.
  - simpl. by rewrite app_nil_r.
  - cbn [fold_left flat_map]. by rewrite IH, getChecks_doRegister_content, <- app_assoc.
Qed.

(** X14.  After [register], the checks of a type name are those it had
    before, followed by the wrappers of the registered checks whose type name
    it is a subtype of, in the order of the record and of its arrays; a
    wrapper is stored once for each time the oracle lists the type name. *)
Theorem getChecks_register_content
    (checksRecord : list (string * ChecksValue Node This CancellationToken))
    (thisObj : This) validationChecks (T : string) :
  getChecks T
    (register getAllTypes isSubtype isOperationCancelled checksRecord thisObj validationChecks)
  = getChecks T validationChecks
    ++ flat_map
         (fun entry : string * ChecksValue Node This CancellationToken =>
            flat_map
              (fun check =>
                 repeat (wrapValidationException isOperationCancelled check thisObj)
                        (if isSubtype T (fst entry)
                         then count_occ string_dec getAllTypes T
                         else 0))
              (checksOf (snd entry)))
         checksRecord.
Proof.
  unfold register. revert validationChecks.
  induction checksRecord as [|[type value] checksRecord IH]; intros validationChecks.
  - simpl. by rewrite app_nil_r.
  - cbn [fold_left flat_map fst snd]. rewrite IH. clear IH.
    rewrite app_assoc. f_equal.
    destruct value as [ch|ch|]; cbn [checksOf flat_map].
    + by rewrite getChecks_doRegister_content, app_nil_r.
    + apply getChecks_register_many_content.
    + by rewrite app_nil_r.
Qed.

Lemma register_unknown
    (checksRecord : list (string * ChecksValue Node This CancellationToken))
    (thisObj : This) validationChecks (T : string) :
  ~ In T getAllTypes ->
  getChecks T
    (register getAllTypes isSubtype isOperationCancelled checksRecord thisObj validationChecks)
  = getChecks T validationChecks.
Proof.
  intros Hno. unfold register. revert validationChecks.
  induction checksRecord as [|[type value] checksRecord IH]; intros validationChecks; [done|].
  cbn [fold_left fst snd]. rewrite IH. clear IH.
  assert (Hzero : forall type,
            (if isSubtype T type then count_occ string_dec getAllTypes T else 0) = 0).
  { intros type'. destruct (isSubtype T type'); [|done]. by apply count_occ_not_In. }
  destruct value as [ch|ch|]; [| |done].
  - by rewrite getChecks_doRegister_content, Hzero, app_nil_r.
  - rewrite getChecks_register_many_content. rewrite flat_map_nil; [by rewrite app_nil_r|].
    intros check _. by rewrite Hzero.
Qed.

(** X15.  Nothing is ever stored under a type name that the oracle does not
    list: after any sequence of registrations on a fresh registry, the lookup
    of such a name, also of a name that checks were registered for, gives the
    empty list. *)
Theorem getChecks_unknown_type
    (calls : list (list (string * ChecksValue Node This CancellationToken) * This))
    (T : string) :
  ~ In T getAllTypes ->
  getChecks T (registerAll getAllTypes isSubtype isOperationCancelled calls ∅) = [].
Proof.
  intros Hno. unfold registerAll.
  assert (H : forall validationChecks,
            getChecks T
              (fold_left
                 (fun acc call =>
                    register getAllTypes isSubtype isOperationCancelled (fst call) (snd call)
                      acc)
                 calls validationChecks)
            = getChecks T validationChecks).
  { induction calls as [|[record thisObj] calls IH]; intros validationChecks; [done|].
    cbn [fold_left fst snd]. by rewrite IH, register_unknown. }
  rewrite H. apply MultiMap_get_empty.
Qed.

Lemma doRegister_no_subtype (type : string) check validationChecks :
  (forall T, In T getAllTypes -> isSubtype T type = false) ->
  doRegister getAllTypes isSubtype type check validationChecks = validationChecks.
Proof.
  unfold doRegister. induction getAllTypes as [|t types IH]; intros Hno; [done|]. simpl.
  rewrite (Hno t) by (by left). apply IH. intros T HT. apply Hno. by right.
Qed.

Lemma register_many_no_subtype (type : string) (thisObj : This)
    (checks : list (ValidationCheck Node This CancellationToken)) validationChecks :
  (forall T, In T getAllTypes -> isSubtype T type = false) ->
  fold_left
    (fun acc check =>
       doRegister getAllTypes isSubtype type
         (wrapValidationException isOperationCancelled check thisObj) acc)
    checks validationChecks
  = validationChecks.
Proof.
  intros Hno. induction checks as [|c checks IH]; [done|]. cbn [fold_left].
  rewrite doRegister_no_subtype by exact Hno. exact IH.
Qed.

(** X16.  A record entry whose value is undefined or an empty array, or whose
    type name has no subtype among the names of the oracle, leaves the
    registry as it is. *)
Theorem register_nothing
    (checksRecord : list (string * ChecksValue Node This CancellationToken))
    (thisObj : This) validationChecks :
  (forall type value,
     In (type, value) checksRecord ->
     checksOf value = [] \/ forall T, In T getAllTypes -> isSubtype T type = false) ->
  register getAllTypes isSubtype isOperationCancelled checksRecord thisObj validationChecks
  = validationChecks.
Proof.
  unfold register. revert validationChecks.
  induction checksRecord as [|[type value] checksRecord IH]; intros validationChecks Hall;
    [done|].
  cbn [fold_left fst snd].
  assert (Hhead :
    match value with
    | ManyChecks ch =>
        fold_left
          (fun acc check =>
             doRegister getAllTypes isSubtype type
               (wrapValidationException isOperationCancelled check thisObj) acc)
          ch validationChecks
    | OneCheck ch =>
        doRegister getAllTypes isSubtype type
          (wrapValidationException isOperationCancelled ch thisObj) validationChecks
    | NoCheck => validationChecks
    end = validationChecks).
  { destruct (Hall type value (or_introl eq_refl)) as [Hempty|Hno].
    - destruct value as [ch|ch|]; simpl in Hempty; [done| |done]. by subst ch.
    - destruct value as [ch|ch|]; [by apply doRegister_no_subtype| |done].
      by apply register_many_no_subtype. }
  rewrite Hhead. apply IH. intros type' value' Hin. apply Hall. by right.
Qed.

Lemma wrapValidationException_outcome check (thisObj receiver : This) (node : Node)
    (cancelToken : CancellationToken) (err : Thrown) :
  outcome (wrapValidationException isOperationCancelled check thisObj receiver node cancelToken)
  = Threw err ->
  (isOperationCancelled err = true /\ outcome (check thisObj node cancelToken) = Threw err)
  \/ (exists thrown,
        outcome (check thisObj node cancelToken) = Threw thrown
        /\ isOperationCancelled thrown = false
        /\ thrownMessage thrown = inr err).
Proof.
  unfold wrapValidationException.
  destruct (outcome (check thisObj node cancelToken)) as [|err'] eqn:Hrun.
  - rewrite Hrun. done.
  - destruct (isOperationCancelled err') eqn:Hcancel.
    + rewrite Hrun. intros [= <-]. by left.
    + destruct (thrownMessage err') as [message|raised] eqn:Hmessage; [done|].
      cbn [outcome]. intros [= <-]. right. by exists err'.
Qed.

(** X17.  A wrapped check raises only the cancellation signal that its check
    raised or what the conversion to a string of the value thrown by its check
    raised; it keeps what the check accepted and logged, in order, adds at
    most one diagnostic, and adds none when it raises. *)
Theorem wrapValidationException_contains check (thisObj receiver : This) (node : Node)
    (cancelToken : CancellationToken) :
  (forall err,
     outcome (wrapValidationException isOperationCancelled check thisObj receiver node
                cancelToken) = Threw err ->
     ((isOperationCancelled err = true /\ outcome (check thisObj node cancelToken) = Threw err)
      \/ (exists thrown,
            outcome (check thisObj node cancelToken) = Threw thrown
            /\ isOperationCancelled thrown = false
            /\ thrownMessage thrown = inr err))
     /\ accepted (wrapValidationException isOperationCancelled check thisObj receiver node
                    cancelToken)
        = accepted (check thisObj node cancelToken))
  /\ (exists added,
        accepted (wrapValidationException isOperationCancelled check thisObj receiver node
                    cancelToken)
        = accepted (check thisObj node cancelToken) ++ added
        /\ List.length added <= 1)
  /\ (exists lines,
        logged (wrapValidationException isOperationCancelled check thisObj receiver node
                  cancelToken)
        = logged (check thisObj node cancelToken) ++ lines).
Proof.
  split.
  { intros err Herr. split; [by apply wrapValidationException_outcome in Herr|].
    revert Herr. unfold wrapValidationException.
    destruct (outcome (check thisObj node cancelToken)) as [|err']; [done|].
    destruct (isOperationCancelled err'); [done|].
    by destruct (thrownMessage err'). }
  unfold wrapValidationException.
  destruct (outcome (check thisObj node cancelToken)) as [|err].
  - split; [exists [] | exists []]; rewrite app_nil_r; [split; [done | simpl; lia] | done].
  - destruct (isOperationCancelled err).
    + split; [exists [] | exists []]; rewrite app_nil_r; [split; [done | simpl; lia] | done].
    + destruct (thrownMessage err).
      * split; eexists; [split; [reflexivity | simpl; lia] | reflexivity].
      * split; [exists []; rewrite app_nil_r; split; [done | simpl; lia]|].
        eexists. reflexivity.
Qed.

(** X18.  Wrapping a wrapped check changes nothing as long as the message of
    what the check raises can be computed: when the check completes, raises
    the cancellation signal, or raises an [Error] or a value that [String]
    converts, the outer wrapper returns exactly the run of the inner one. *)
Theorem wrapValidationException_twice check (thisObj outerThis receiver : This) (node : Node)
    (cancelToken : CancellationToken) :
  (forall err,
     outcome (check thisObj node cancelToken) = Threw err ->
     isOperationCancelled err = true \/ exists message, thrownMessage err = inl message) ->
  wrapValidationException isOperationCancelled
    (wrapValidationException isOperationCancelled check thisObj) outerThis
    receiver node cancelToken
  = wrapValidationException isOperationCancelled check thisObj receiver node cancelToken.
Proof.
  intros Hprintable. unfold wrapValidationException at 1.
  destruct (outcome (wrapValidationException isOperationCancelled check thisObj outerThis node
                       cancelToken)) as [|err] eqn:Hrun; [done|].
  apply wrapValidationException_outcome in Hrun
    as [[Hcancel _]|(thrown & Hthrown & Hcancel & Hmessage)].
  - by rewrite Hcancel.
  - destruct (Hprintable thrown Hthrown) as [H|[message H]]; congruence.
Qed.

End RegistryContent.

(** ** Evaluations of the further properties *)

Lemma validateTypesConsistency_one_sided_witness :
  validateTypesConsistency Sample.getRuleType Sample.extractAssignments Sample.distictAndSorted
    Sample.propertyTypeArrayToString AstResources Sample.collectAllAstResources
    Sample.collectInferredTypes Sample.collectDeclaredTypes
    {| parserRules := [Sample.rule "X" [{| feature := "name"; anchor := 1 |}]];
       datatypeRules := [];
       interfaceDecls := [{| interfaceDecl_name := "Y" |}];
       typeDecls := [{| type_name := "Z" |}] |}
  = [].
Proof.
  apply validateTypesConsistency_one_sided.
  intros typeName [<-|[]] [H|[H|[]]]; discriminate H.
Defined.

Lemma validateTypesConsistency_anchored_witness :
  anchoredInGrammar Sample.extractAssignments
    (Sample.collectAllAstResources
       [{| parserRules := [Sample.ruleInferring "Start" "X" [{| feature := "name"; anchor := 1 |}]];
           datatypeRules := [];
           interfaceDecls := [];
           typeDecls := [{| type_name := "X" |}] |}])
    {| severity := error;
       message := "Inferred and declared versions of type X have to be types or interfaces both.";
       diagnosticInfo := {| node := NodeInferredType {| inferredType_name := "X" |};
                            property := Some "name" |} |}.
Proof.
  apply (validateTypesConsistency_anchored Sample.getRuleType Sample.extractAssignments
           Sample.distictAndSorted Sample.propertyTypeArrayToString AstResources
           Sample.collectAllAstResources Sample.collectInferredTypes
           Sample.collectDeclaredTypes).
  left. reflexivity.
Defined.

Lemma getChecks_unknown_type_witness :
  getChecks "Unknown"
    (registerAll Sample.getAllTypes Sample.isSubtype Sample.isOperationCancelled
       [([("Unknown", OneCheck Sample.failingCheck)], tt);
        ([("Element", ManyChecks [Sample.failingCheck])], tt)] ∅)
  = [].
Proof.
  apply getChecks_unknown_type.
  intros [H|[H|[H|[]]]]; discriminate H.
Defined.

Lemma register_nothing_witness :
  register Sample.getAllTypes Sample.isSubtype Sample.isOperationCancelled
    [("Element", ManyChecks []); ("Entity", NoCheck); ("Nowhere", OneCheck Sample.failingCheck)]
    tt ∅
  = ∅.
Proof.
  apply register_nothing.
  intros type value [[= <- <-]|[[= <- <-]|[[= <- <-]|[]]]].
  - by left.
  - by left.
  - right. intros T [<-|[<-|[<-|[]]]]; reflexivity.
Defined.

Lemma wrapValidationException_twice_witness :
  wrapValidationException Sample.isOperationCancelled
    (wrapValidationException Sample.isOperationCancelled Sample.failingCheck tt) tt tt 7 tt
  = wrapValidationException Sample.isOperationCancelled Sample.failingCheck tt tt 7 tt.
Proof.
  apply wrapValidationException_twice.
  intros err [= <-]. right. by eexists.
Defined.

(** * The pass on a grammar *)

Section GrammarPass.

Variable getRuleType : ParserRule -> string.
Variable extractAssignments : AbstractElement -> list Assignment.
Variable distictAndSorted : list string -> list string.
Variable propertyTypeArrayToString : list PropertyType -> string.
Variable Grammar : Type.
Variable collectAllAstResources : list Grammar -> AstResources.
Variable collectInferredTypes : list ParserRule -> list ParserRule -> AstTypes.
Variable collectDeclaredTypes : list InterfaceDecl -> list TypeDecl -> AstTypes -> AstTypes.

(** C4.  When the entry of a name in the merged map of a grammar has a union
    on one side and an interface on the other, [validateTypesConsistency]
    emits for this name the shape-mismatch error once per producing rule (the
    rules of the grammar that return the name, each anchored to its annotation
    or to the rule) followed by the same error on the declaration node of the
    name, and nothing else; the name has no other entry, and the names before
    and after it in the map are checked as usual. *)
Theorem shape_mismatch_diagnostics (grammar : Grammar) (typeName : string)
    (i : InferredInfo) (d : DeclaredInfo) :
  In (typeName, InferredAndDeclared i d)
     (collectValidationResources getRuleType Grammar collectAllAstResources
        collectInferredTypes collectDeclaredTypes grammar) ->
  isType (inferred i) <> isType (declared d) ->
  validateTypeInfo extractAssignments distictAndSorted propertyTypeArrayToString
    typeName (InferredAndDeclared i d)
  = map (fun rule =>
           {| severity := error;
              message := shapeMismatchMessage typeName;
              diagnosticInfo :=
                {| node := match inferredType rule with
                           | Some annotation => NodeInferredType annotation
                           | None => NodeRule rule
                           end;
                   property := Some "name" |} |})
        (nodes i)
    ++ [{| severity := error;
           message := shapeMismatchMessage typeName;
           diagnosticInfo := {| node := declNode (decl d); property := Some "name" |} |}]
  /\ (forall before after,
        validateResources extractAssignments distictAndSorted propertyTypeArrayToString
          (before ++ (typeName, InferredAndDeclared i d) :: after)
        = validateResources extractAssignments distictAndSorted propertyTypeArrayToString before
          ++ validateTypeInfo extractAssignments distictAndSorted propertyTypeArrayToString
               typeName (InferredAndDeclared i d)
          ++ validateResources extractAssignments distictAndSorted propertyTypeArrayToString
               after)
  /\ nodes i = rulesReturning getRuleType (collectAllAstResources [grammar]) typeName
  /\ findDeclNode (collectAllAstResources [grammar]) typeName = Some (decl d)
  /\ exists before after,
       collectValidationResources getRuleType Grammar collectAllAstResources
         collectInferredTypes collectDeclaredTypes grammar
       = before ++ (typeName, InferredAndDeclared i d) :: after
       /\ ~ In typeName (map fst before)
       /\ ~ In typeName (map fst after)
       /\ validateTypesConsistency getRuleType extractAssignments distictAndSorted
            propertyTypeArrayToString Grammar collectAllAstResources collectInferredTypes
            collectDeclaredTypes grammar
          = validateResources extractAssignments distictAndSorted propertyTypeArrayToString
              before
            ++ (map (fun rule =>
                       {| severity := error;
                          message := shapeMismatchMessage typeName;
                          diagnosticInfo :=
                            {| node := match inferredType rule with
                                       | Some annotation => NodeInferredType annotation
                                       | None => NodeRule rule
                                       end;
                               property := Some "name" |} |})
                    (nodes i)
                ++ [{| severity := error;
                       message := shapeMismatchMessage typeName;
                       diagnosticInfo :=
                         {| node := declNode (decl d); property := Some "name" |} |}])
            ++ validateResources extractAssignments distictAndSorted
                 propertyTypeArrayToString after.
Proof.
  intros Hentry Hkind.
  assert (Hone :
    validateTypeInfo extractAssignments distictAndSorted propertyTypeArrayToString
      typeName (InferredAndDeclared i d)
    = map (fun rule =>
             {| severity := error;
                message := shapeMismatchMessage typeName;
                diagnosticInfo :=
                  {| node := match inferredType rule with
                             | Some annotation => NodeInferredType annotation
                             | None => NodeRule rule
                             end;
                     property := Some "name" |} |})
          (nodes i)
      ++ [{| severity := error;
             message := shapeMismatchMessage typeName;
             diagnosticInfo := {| node := declNode (decl d); property := Some "name" |} |}]).
  { exact (proj1 (shape_mismatch_entry extractAssignments distictAndSorted
                    propertyTypeArrayToString typeName i d [] [] Hkind)). }
  split; [exact Hone|]. split.
  { intros before after.
    exact (proj2 (shape_mismatch_entry extractAssignments distictAndSorted
                    propertyTypeArrayToString typeName i d before after Hkind)). }
  destruct (validationResources_both getRuleType Grammar collectAllAstResources
              collectInferredTypes collectDeclaredTypes grammar typeName i d Hentry)
    as (Hnodes & Hdecl & _ & _).
  split; [exact Hnodes|]. split; [exact Hdecl|].
  pose proof (JsMap_foldSome_NoDup typeName_of
                (declaredEntry getRuleType (collectAllAstResources [grammar])
                   (collectInferredTypes (parserRules (collectAllAstResources [grammar]))
                      (datatypeRules (collectAllAstResources [grammar]))))
                (mergeTypesAndInterfaces
                   (collectDeclaredTypes (interfaceDecls (collectAllAstResources [grammar]))
                      (typeDecls (collectAllAstResources [grammar]))
                      (collectInferredTypes (parserRules (collectAllAstResources [grammar]))
                         (datatypeRules (collectAllAstResources [grammar])))))
                [] (List.NoDup_nil _)) as Hnd.
  rewrite <- collectValidationResources_setSome in Hnd.
  unfold validateTypesConsistency.
  apply in_split in Hentry as (before & after & Hsplit).
  rewrite Hsplit in Hnd |- *. exists before, after.
  rewrite map_app in Hnd. simpl in Hnd. apply List.NoDup_remove_2 in Hnd.
  split; [done|].
  split; [intros H; apply Hnd, in_app_iff; by left|].
  split; [intros H; apply Hnd, in_app_iff; by right|].
  by rewrite validateResources_app, validateResources_cons, Hone.
Qed.

End GrammarPass.

Lemma shape_mismatch_diagnostics_witness :
  exists before after,
    collectValidationResources Sample.getRuleType AstResources Sample.collectAllAstResources
      Sample.collectInferredTypes Sample.collectDeclaredTypes
      {| parserRules := [Sample.ruleInferring "Start" "X" []; Sample.rule "X" []];
         datatypeRules := [];
         interfaceDecls := [];
         typeDecls := [{| type_name := "X" |}] |}
    = before
      ++ ("X",
          InferredAndDeclared
            {| inferred :=
                 IsInterface {| interface_name := "X"; properties := []; superTypes := [] |};
               nodes := [Sample.ruleInferring "Start" "X" []; Sample.rule "X" []] |}
            {| declared := IsUnion {| union_name := "X"; union := [] |};
               decl := DeclType {| type_name := "X" |} |})
      :: after
    /\ ~ In "X" (map fst before)
    /\ ~ In "X" (map fst after)
    /\ validateTypesConsistency Sample.getRuleType Sample.extractAssignments
         Sample.distictAndSorted Sample.propertyTypeArrayToString AstResources
         Sample.collectAllAstResources Sample.collectInferredTypes Sample.collectDeclaredTypes
         {| parserRules := [Sample.ruleInferring "Start" "X" []; Sample.rule "X" []];
            datatypeRules := [];
            interfaceDecls := [];
            typeDecls := [{| type_name := "X" |}] |}
       = validateResources Sample.extractAssignments Sample.distictAndSorted
           Sample.propertyTypeArrayToString before
         ++ [ {| severity := error;
                 message :=
                   "Inferred and declared versions of type X have to be types or interfaces both.";
                 diagnosticInfo := {| node := NodeInferredType {| inferredType_name := "X" |};
                                      property := Some "name" |} |};
              {| severity := error;
                 message :=
                   "Inferred and declared versions of type X have to be types or interfaces both.";
                 diagnosticInfo := {| node := NodeRule (Sample.rule "X" []);
                                      property := Some "name" |} |};
              {| severity := error;
                 message :=
                   "Inferred and declared versions of type X have to be types or interfaces both.";
                 diagnosticInfo := {| node := NodeType {| type_name := "X" |};
                                      property := Some "name" |} |} ]
         ++ validateResources Sample.extractAssignments Sample.distictAndSorted
              Sample.propertyTypeArrayToString after.
Proof.
  refine (proj2 (proj2 (proj2 (proj2
            (shape_mismatch_diagnostics Sample.getRuleType Sample.extractAssignments
               Sample.distictAndSorted Sample.propertyTypeArrayToString AstResources
               Sample.collectAllAstResources Sample.collectInferredTypes
               Sample.collectDeclaredTypes
               {| parserRules := [Sample.ruleInferring "Start" "X" []; Sample.rule "X" []];
                  datatypeRules := [];
                  interfaceDecls := [];
                  typeDecls := [{| type_name := "X" |}] |}
               "X" _ _ _ _))))).
  - left. reflexivity.
  - simpl. discriminate.
Defined.

(** * The optionality check inside the properties check *)

Lemma list_ascii_of_string_append (a b : string) :
  list_ascii_of_string (a +:+ b) = list_ascii_of_string a ++ list_ascii_of_string b.
Proof.
  induction a as [|c a IH]; [done|].
  rewrite string_append_String. simpl. by rewrite IH.
Qed.

Lemma string_append_cancel_r (a b t : string) : a +:+ t = b +:+ t -> a = b.
Proof.
  intros H. apply (f_equal list_ascii_of_string) in H.
  rewrite !list_ascii_of_string_append in H. apply app_inv_tail in H.
  apply (f_equal string_of_list_ascii) in H.
  by rewrite !string_of_list_ascii_of_string in H.
Qed.

Lemma optional_message_name (n m : string) :
  "A property '" +:+ n +:+ "' can't be optional."
  = "A property '" +:+ m +:+ "' can't be optional." ->
  n = m.
Proof. intros H. apply String.app_inj in H. by apply string_append_cancel_r in H. Qed.

Lemma optional_message_not_unexpected (n m : string) :
  "A property '" +:+ n +:+ "' is not expected."
  <> "A property '" +:+ m +:+ "' can't be optional.".
Proof.
  intros H. apply String.app_inj in H.
  apply (f_equal list_ascii_of_string) in H. rewrite !list_ascii_of_string_append in H.
  apply (f_equal (@List.rev ascii)) in H. rewrite !List.rev_app_distr in H.
  simpl in H. discriminate H.
Qed.

Section OptionalInChecker.

Variable extractAssignments : AbstractElement -> list Assignment.
Variable distictAndSorted : list string -> list string.
Variable propertyTypeArrayToString : list PropertyType -> string.

(** C6, as the code has it.  Every inferred property matched by name with a
    declared one goes through the optionality check, whatever its types are.
    The properties check emits the diagnostic "A property '<name>' can't be
    optional." on an assignment exactly when an inferred property of that name
    is matched with a declared one, neither side is the
    single-array-alternative case, the declared property is not optional, the
    inferred one is, and the assignment is the assignment node of the name in
    the producing rules; for one matched pair it is emitted at most once. *)
Theorem optional_diagnostic (nodes : list ParserRule) (typeName : string)
    (inferred declared : list Property) (foundProperty expectedProperty : Property) :
  (forall diagnostic,
     In diagnostic
        (checkPropertyOptional foundProperty expectedProperty
           (applyErrorToAssignment extractAssignments nodes))
     <-> (~ singleArrayAlternativeCase foundProperty
          /\ ~ singleArrayAlternativeCase expectedProperty
          /\ optional expectedProperty = false
          /\ optional foundProperty = true
          /\ exists assignment,
               assignmentNodeFor extractAssignments nodes (name foundProperty) = Some assignment
               /\ diagnostic
                  = assignmentDiagnostic
                      ("A property '" +:+ name foundProperty +:+ "' can't be optional.")
                      assignment))
  /\ List.length
       (checkPropertyOptional foundProperty expectedProperty
          (applyErrorToAssignment extractAssignments nodes)) <= 1
  /\ (List.find (fun e => String.eqb (name foundProperty) (name e)) declared
      = Some expectedProperty ->
      checkFoundProperty distictAndSorted propertyTypeArrayToString declared
        (applyErrorToAssignment extractAssignments nodes) foundProperty
      = checkPropertyTypeAlternatives distictAndSorted propertyTypeArrayToString
          foundProperty expectedProperty (applyErrorToAssignment extractAssignments nodes)
        ++ checkPropertyOptional foundProperty expectedProperty
             (applyErrorToAssignment extractAssignments nodes))
  /\ (forall propertyName assignment,
        In (assignmentDiagnostic ("A property '" +:+ propertyName +:+ "' can't be optional.")
              assignment)
           (checkPropertiesConsistency distictAndSorted propertyTypeArrayToString
              inferred declared (applyErrorToRuleNodes nodes typeName)
              (applyErrorToAssignment extractAssignments nodes))
        <-> exists found expected,
              In found inferred
              /\ name found = propertyName
              /\ List.find (fun e => String.eqb (name found) (name e)) declared = Some expected
              /\ ~ singleArrayAlternativeCase found
              /\ ~ singleArrayAlternativeCase expected
              /\ optional expected = false
              /\ optional found = true
              /\ assignmentNodeFor extractAssignments nodes propertyName = Some assignment).
Proof.
  destruct (checkPropertyOptional_diagnostic extractAssignments nodes foundProperty
              expectedProperty) as [Hiff Hlen].
  split; [exact Hiff|]. split; [exact Hlen|]. split.
  { intros Hfind. unfold checkFoundProperty. by rewrite Hfind. }
  clear Hiff Hlen. intros propertyName assignment. unfold checkPropertiesConsistency. split.
  - intros Hin. apply in_app_iff in Hin as [Hin|Hin].
    + apply in_flat_map in Hin as (found & Hfound & Hin).
      unfold checkFoundProperty in Hin.
      destruct (List.find _ declared) as [expected|] eqn:Hfind.
      * apply in_app_iff in Hin as [Hin|Hin].
        -- exfalso. unfold checkPropertyTypeAlternatives in Hin.
           revert Hin. destruct (negb _); [|intros []].
           destruct (checkAlternativesConsistencyHelper _ _ _) as [|e errors] eqn:He;
             [intros []|].
           cbn [List.length Nat.ltb Nat.leb]. intros Hin.
           revert Hin. rewrite applyErrorToAssignment_assignmentNodeFor.
           destruct (assignmentNodeFor extractAssignments nodes (name found)); [|intros []].
           intros [Hin|[]]. apply (f_equal message) in Hin.
           cbn [message assignmentDiagnostic] in Hin. rename Hin into Hmsg.
           rewrite resultError_combinedMessage in Hmsg by done.
           unfold combinedMessage in Hmsg. rewrite !string_append_String in Hmsg.
           discriminate Hmsg.
        -- apply (proj1 (checkPropertyOptional_diagnostic extractAssignments nodes found
                           expected)) in Hin
             as (H1 & H2 & H3 & H4 & a & Ha & Heq).
           pose proof (f_equal message Heq) as Hmsg.
           cbn [message assignmentDiagnostic] in Hmsg.
           assert (assignment = a) as -> by (by injection Heq).
           apply optional_message_name in Hmsg. subst propertyName.
           by exists found, expected.
      * exfalso. revert Hin. rewrite applyErrorToAssignment_assignmentNodeFor.
        destruct (assignmentNodeFor extractAssignments nodes (name found)); [|intros []].
        intros [Hin|[]]. apply (f_equal message) in Hin.
        cbn [message assignmentDiagnostic] in Hin.
        by apply optional_message_not_unexpected in Hin.
    + exfalso. apply in_flat_map in Hin as (q & _ & Hin). unfold checkLackingProperty in Hin.
      destruct (List.find _ inferred); [done|].
      apply applyErrorToRuleNodes_in in Hin as (rule & _ & Heq).
      unfold assignmentDiagnostic, ruleDiagnostic in Heq.
      destruct (inferredType rule); discriminate Heq.
  - intros (found & expected & Hfound & <- & Hfind & H1 & H2 & H3 & H4 & Ha).
    apply in_app_iff. left. apply in_flat_map. exists found. split; [done|].
    unfold checkFoundProperty. rewrite Hfind. apply in_app_iff. right.
    apply (proj1 (checkPropertyOptional_diagnostic extractAssignments nodes found expected)).
    repeat split; try done. by exists assignment.
Qed.

End OptionalInChecker.

Lemma optional_diagnostic_witness :
  checkFoundProperty Sample.distictAndSorted Sample.propertyTypeArrayToString
    [Sample.itemsPlainRequired]
    (applyErrorToAssignment Sample.extractAssignments
       [Sample.rule "T" [{| feature := "name"; anchor := 1 |};
                         {| feature := "items"; anchor := 2 |}]])
    Sample.itemsPlainOptional
  = checkPropertyTypeAlternatives Sample.distictAndSorted Sample.propertyTypeArrayToString
      Sample.itemsPlainOptional Sample.itemsPlainRequired
      (applyErrorToAssignment Sample.extractAssignments
         [Sample.rule "T" [{| feature := "name"; anchor := 1 |};
                           {| feature := "items"; anchor := 2 |}]])
    ++ checkPropertyOptional Sample.itemsPlainOptional Sample.itemsPlainRequired
         (applyErrorToAssignment Sample.extractAssignments
            [Sample.rule "T" [{| feature := "name"; anchor := 1 |};
                              {| feature := "items"; anchor := 2 |}]])
  /\ In (assignmentDiagnostic "A property 'items' can't be optional."
           {| feature := "items"; anchor := 2 |})
        (checkPropertiesConsistency Sample.distictAndSorted Sample.propertyTypeArrayToString
           [Sample.itemsPlainOptional] [Sample.itemsPlainRequired]
           (applyErrorToRuleNodes
              [Sample.rule "T" [{| feature := "name"; anchor := 1 |};
                                {| feature := "items"; anchor := 2 |}]] "T")
           (applyErrorToAssignment Sample.extractAssignments
              [Sample.rule "T" [{| feature := "name"; anchor := 1 |};
                                {| feature := "items"; anchor := 2 |}]])).
Proof.
  destruct (optional_diagnostic Sample.extractAssignments Sample.distictAndSorted
              Sample.propertyTypeArrayToString
              [Sample.rule "T" [{| feature := "name"; anchor := 1 |};
                                {| feature := "items"; anchor := 2 |}]] "T"
              [Sample.itemsPlainOptional] [Sample.itemsPlainRequired]
              Sample.itemsPlainOptional Sample.itemsPlainRequired)
    as (_ & _ & Hbody & Hchecker).
  split; [exact (Hbody eq_refl)|].
  apply (proj2 (Hchecker "items" {| feature := "items"; anchor := 2 |})).
  exists Sample.itemsPlainOptional, Sample.itemsPlainRequired.
  repeat split; try reflexivity.
  - by left.
  - intros (alternative & [= <-] & H). discriminate H.
  - intros (alternative & [= <-] & H). discriminate H.
Defined.
